(** * Verification of internal/lm/mig-strategy.go

    A shallow embedding of the resource labelers of the GPU feature
    discovery: the choice of a labeler by MIG strategy, the validity checks
    of the "single" strategy, the counting of MIG devices by profile name
    and the canonical name of a MIG device. *)

From stdpp Require Import base decidable option list strings pretty.
From stdpp Require Import gmap fin_maps.
From Stdlib Require Import ZArith Lia.

Local Open Scope string_scope.
Local Open Scope list_scope.
Local Open Scope Z_scope.

(** ** Errors and results

    A Go function returning [(T, error)] returns [result T]. An error is its
    message: [fmt.Errorf("...: %v", err)] prepends a prefix to the message
    of [err]. *)

Definition error := string.

Inductive result (A : Type) : Type :=
| Ok (a : A)
| Err (e : error).

Arguments Ok {A} a.
Arguments Err {A} e.

(** [fmt.Errorf(prefix ++ "%v", err)] *)
Definition Errorf (prefix : string) (err : error) : error := prefix +:+ err.

(** ** Machine integers *)

Definition uint64_modulus : Z := 2 ^ 64.

(** Arithmetic on [uint64] wraps around. *)
Definition wrap_uint64 (z : Z) : Z := z mod uint64_modulus.

(** The conversion [int(x)] of a [uint] on a 64-bit platform. *)
Definition int_of_uint (x : Z) : Z :=
  let y := x mod uint64_modulus in
  if y <? 2 ^ 63 then y else y - uint64_modulus.

(** ** The nvml interfaces (package internal/nvml, declared outside this file)

    [DeviceAttributes] carries the two fields read by this file:
    [GpuInstanceSliceCount], a [uint32], and [MemorySizeMB], a [uint64]. *)

Record DeviceAttributes : Type := mkDeviceAttributes {
  GpuInstanceSliceCount : Z;
  MemorySizeMB : Z
}.

(** The values a [DeviceAttributes] can hold. *)
Definition attributes_in_range (a : DeviceAttributes) : Prop :=
  0 <= GpuInstanceSliceCount a < 2 ^ 32 /\ 0 <= MemorySizeMB a < 2 ^ 64.

(** A [nvml.Device] is given by what its methods return. Full GPUs and MIG
    devices share the interface; the MIG devices of a GPU are devices. *)
#[warnings="-register-all"] Inductive Device : Type :=
| mkDevice (getName : result string)
           (getAttributes : result DeviceAttributes)
           (isMigEnabled : result bool)
           (getMigDevices : result (list Device)).

Definition GetName (d : Device) : result string :=
  match d with mkDevice n _ _ _ => n end.
Definition GetAttributes (d : Device) : result DeviceAttributes :=
  match d with mkDevice _ a _ _ => a end.
Definition IsMigEnabled (d : Device) : result bool :=
  match d with mkDevice _ _ e _ => e end.
Definition GetMigDevices (d : Device) : result (list Device) :=
  match d with mkDevice _ _ _ m => m end.

(** [nvml.Nvml]: the device count is a [uint], devices are asked by index. *)
Record Nvml : Type := mkNvml {
  GetDeviceCount : result Z;
  NewDevice : Z -> result Device
}.

(** ** Calls and their trace

    Every fallible call that leaves this file, and every line written to the
    log, is recorded, in the order the code makes them. *)

Inductive Event : Type :=
| CallGetDeviceCount
| CallNewDevice (i : Z)
| CallGetName
| CallGetAttributes
| CallGetDevicesWithMigEnabled
| CallAnyMigEnabledDeviceIsEmpty
| CallGetDevicesWithMigDisabled
| CallGetAllMigDevices
| CallNewGPUResourceLabeler
| CallNewMIGResourceLabeler
| CallLabels
| LogPrintf (msg : string).

Global Instance Event_eq_dec : EqDecision Event.
Proof. solve_decision. Defined.

(** A computation yields the trace of its calls and a result. *)
Definition M (A : Type) : Type := (list Event * result A)%type.

Definition ret {A} (a : A) : M A := ([], Ok a).
Definition fail {A} (e : error) : M A := ([], Err e).
Definition call {A} (ev : Event) (r : result A) : M A := ([ev], r).
Definition logPrintf (msg : string) : M unit := ([LogPrintf msg], Ok tt).

Definition bind {A B} (m : M A) (k : A -> M B) : M B :=
  match m with
  | (t, Ok a) => let '(t', r) := k a in (t ++ t', r)
  | (t, Err e) => (t, Err e)
  end.

(** [if err != nil { return nil, fmt.Errorf(prefix ++ "%v", err) }] *)
Definition wrapErr {A} (prefix : string) (m : M A) : M A :=
  match m with
  | (t, Ok a) => (t, Ok a)
  | (t, Err e) => (t, Err (Errorf prefix e))
  end.

Definition trace {A} (m : M A) : list Event := fst m.
Definition outcome {A} (m : M A) : result A := snd m.

(** The messages written to the log, in order. *)
Definition logged (t : list Event) : list string :=
  omap (fun ev => match ev with LogPrintf msg => Some msg | _ => None end) t.

(** [after t m]: the computation [m] run after the calls [t]. *)
Definition after {A} (t : list Event) (m : M A) : M A :=
  (t ++ trace m, outcome m).

Declare Scope go_scope.
Delimit Scope go_scope with go.
Notation "x <- c1 ;; c2" := (bind c1 (fun x => c2))
  (at level 100, c1 at next level, right associativity) : go_scope.
Notation "c1 ;;; c2" := (bind c1 (fun _ => c2))
  (at level 100, right associativity) : go_scope.
Notation "c 'orElse' prefix" := (wrapErr prefix c)
  (at level 60, no associativity) : go_scope.
Local Open Scope go_scope.

(** ** getMigDeviceName *)

(** [fmt.Sprintf("%d", x)] *)
Definition fmt_d (x : Z) : string := pretty x.

(** getMigDeviceName() returns the canonical name of the MIG device *)
Definition getMigDeviceName (mig : Device) : M string :=
  attr <- call CallGetAttributes (GetAttributes mig) ;;
  let g := GpuInstanceSliceCount attr in
  let gb := wrap_uint64 (wrap_uint64 (MemorySizeMB attr + 1024) - 1) / 1024 in
  let r := fmt_d g +:+ "g." +:+ fmt_d gb +:+ "gb" in
  ret r.

(** ** Configuration (package api/config/v1 of the device plugin) *)

Record CommandLineFlags : Type := mkFlags {
  MigStrategy : string
}.

Record Config : Type := mkConfig {
  Flags : CommandLineFlags
}.

Definition ResourceName := string.

(** [spec.MigStrategyNone], the constant of the device plugin's package. *)
Definition spec_MigStrategyNone : string := "none".

(** Constants representing different MIG strategies. *)
Definition MigStrategyNone : string := "none".
Definition MigStrategySingle : string := "single".
Definition MigStrategyMixed : string := "mixed".

(** ** Labels and labelers

    [Labels] is a [map[string]string]. The labelers this file returns are
    the empty labeler [empty{}], a [Labels] value, which is its own labeler,
    and a [list] of labelers. *)

#[warnings="-register-all"] Inductive Labeler : Type :=
| empty
| ofLabels (labels : gmap string string)
| ofList (labelers : list Labeler).

(** migResource is used to track MIG devices for labelling under the single
    and mixed strategies. [device] is an interface value, nil in the zero
    value of the struct. *)
Record migResource : Type := mkMigResource {
  name : ResourceName;
  device : option Device;
  count : Z
}.

Definition migResource_zero : migResource :=
  {| name := ""; device := None; count := 0 |}.

(** [resourceLabeler], of which this file sets the resource name only. *)
Record resourceLabeler : Type := mkResourceLabeler {
  resourceName : ResourceName
}.

(** The rest of package lm, defined outside this file. The constructors of
    labelers are fallible; what they compute is not fixed here. *)
Class LmPackage : Type := {
  NewGPUResourceLabeler : Config -> Device -> Z -> result Labeler;
  NewMIGResourceLabeler :
    ResourceName -> Config -> option Device -> Z -> result Labeler;
  migStrategyLabeler : string -> Labeler;
  Merge : list Labeler -> Labeler;
  list_Labels : list Labeler -> result (gmap string string);
  productLabel : resourceLabeler -> string -> list string -> gmap string string;
  labelKey : resourceLabeler -> string -> string
}.

(** Modelled from the spec: [resourceLabeler.updateLabel], defined outside
    this file, sets the field [k] of the label set, under the key the
    labeler composes for it, to the printed value [v]. *)
Definition updateLabel `{LmPackage} (rl : resourceLabeler)
    (labels : gmap string string) (k : string) (v : Z) : gmap string string :=
  <[labelKey rl k := fmt_d v]> labels.

(** Package internal/mig, defined outside this file: what the four queries
    on a [DeviceInfo] return. *)
Record DeviceInfo : Type := mkDeviceInfo {
  GetDevicesWithMigEnabled : result (list Device);
  AnyMigEnabledDeviceIsEmpty : result bool;
  GetDevicesWithMigDisabled : result (list Device);
  GetAllMigDevices : result (list Device)
}.

Class MigPackage : Type := {
  NewDeviceInfo : Nvml -> DeviceInfo
}.

(** ** The labelers of this file *)

Section Labelers.
Context `{lmPkg : LmPackage} `{migPkg : MigPackage}.

(** newGPULabelers creates a set of labelers for full GPUs. The loop over
    the devices breaks at the end of its first round. *)
Definition newGPULabelers (nvmlLib : Nvml) (config : Config) : M Labeler :=
  count <- call CallGetDeviceCount (GetDeviceCount nvmlLib)
             orElse "error getting device count: " ;;
  if decide (count = 0) then fail "no GPU devices detected" else
  labelers <-
    (let labelers : list Labeler := [] in
     let i := 0 in
     if decide (i < count) then
       device <- call (CallNewDevice i) (NewDevice nvmlLib i)
                   orElse "error getting device: " ;;
       l <- call CallNewGPUResourceLabeler
              (NewGPUResourceLabeler config device (int_of_uint count))
              orElse "failed to construct labeler: " ;;
       let labelers := labelers ++ [l] in
       (* TODO: We only process one device *)
       ret labelers
     else ret labelers) ;;
  labels <- call CallLabels (list_Labels labelers) ;;
  ret (ofLabels labels).

Definition newInvalidMigStrategyLabeler (nvml : Nvml) (reason : string)
    : M Labeler :=
  logPrintf ("WARNING: Invalid configuration detected for mig-strategy=single: "
             +:+ reason) ;;;
  device <- call (CallNewDevice 0) (NewDevice nvml 0)
              orElse "error getting device: " ;;
  model <- call CallGetName (GetName device)
             orElse "failed to get device model: " ;;
  let rl := {| resourceName := "nvidia.com/gpu" |} in
  let labels := productLabel rl model ["MIG"; "INVALID"] in
  let labels := updateLabel rl labels "count" 0 in
  let labels := updateLabel rl labels "memory" 0 in
  ret (ofLabels labels).

(** The loop [for _, mig := range migs] of the single and of the mixed
    labeler: the two differ in the resource name given to a profile at its
    first occurrence only. The count of a resource is at most the length
    of [migs], so that [count++] on an [int] does not wrap. *)
Fixpoint countMigDevices (resourceNameOf : string -> ResourceName)
    (migs : list Device) (resources : gmap string migResource)
    : M (gmap string migResource) :=
  match migs with
  | [] => ret resources
  | mig :: migs =>
      name_ <- getMigDeviceName mig
                 orElse "unable to parse MIG device name: " ;;
      let '(resource, exists_) :=
        match resources !! name_ with
        | Some r => (r, true)
        | None => (migResource_zero, false)
        end in
      (* For the first ocurrence we update the device reference and the
         resource name *)
      let resource :=
        if negb exists_
        then {| name := resourceNameOf name_; device := Some mig;
                count := count resource |}
        else resource in
      (* We increase the count *)
      let resource :=
        {| name := name resource; device := device resource;
           count := count resource + 1 |} in
      countMigDevices resourceNameOf migs (<[name_ := resource]> resources)
  end.

(** The loop of newMIGDeviceLabelers, over the resources in the order the
    map yields them. *)
Fixpoint newMIGDeviceLabelers_loop (config : Config)
    (resources : list (string * migResource)) (labelers : list Labeler)
    : M (list Labeler) :=
  match resources with
  | [] => ret labelers
  | (_, resource) :: resources =>
      l <- call CallNewMIGResourceLabeler
             (NewMIGResourceLabeler (name resource) config (device resource)
                                    (count resource))
             orElse "failed to construct labeler: " ;;
      newMIGDeviceLabelers_loop config resources (labelers ++ [l])
  end.

Definition newMIGDeviceLabelers (resources : gmap string migResource)
    (config : Config) : M Labeler :=
  labelers <- newMIGDeviceLabelers_loop config (map_to_list resources) [] ;;
  ret (ofList labelers).

Definition newMigStrategySingleLabeler (nvmlLib : Nvml) (config : Config)
    : M Labeler :=
  let deviceInfo := NewDeviceInfo nvmlLib in
  migEnabledDevices <-
    call CallGetDevicesWithMigEnabled (GetDevicesWithMigEnabled deviceInfo)
      orElse "unabled to retrieve list of MIG-enabled devices: " ;;
  (* No devices have migEnabled=true. This is equivalent to the `none` MIG
     strategy *)
  if decide (length migEnabledDevices = 0%nat) then ret empty else
  hasEmpty <-
    call CallAnyMigEnabledDeviceIsEmpty (AnyMigEnabledDeviceIsEmpty deviceInfo)
      orElse "failed to check for empty MIG-enabled devices: " ;;
  (* If any migEnabled=true device is empty, we return the set of
     mig-strategy-invalid labels. *)
  if hasEmpty : bool then
    newInvalidMigStrategyLabeler nvmlLib
      "at least one MIG device is enabled but empty"
  else
  migDisabledDevices <-
    call CallGetDevicesWithMigDisabled (GetDevicesWithMigDisabled deviceInfo)
      orElse "unabled to retrieve list of non-MIG-enabled devices: " ;;
  (* If we have a mix of mig-enabled and mig-disabled device we return the
     set of mig-strategy-invalid labels *)
  if decide (length migDisabledDevices ≠ 0%nat) then
    newInvalidMigStrategyLabeler nvmlLib
      "devices with MIG enabled and disable detected"
  else
  migs <- call CallGetAllMigDevices (GetAllMigDevices deviceInfo)
            orElse "unable to retrieve list of MIG devices: " ;;
  (* Add new MIG related labels on each individual MIG type *)
  let fullGPUResourceName : ResourceName := "nvidia.com/gpu" in
  resources <- countMigDevices (fun _ => fullGPUResourceName) migs ∅ ;;
  (* Multiple resources mean that we have more than one MIG profile defined.
     Return the set of mig-strategy-invalid labels. *)
  if decide (size resources ≠ 1%nat) then
    newInvalidMigStrategyLabeler nvmlLib
      "more than one MIG device type present on node"
  else
  newMIGDeviceLabelers resources config.

(** migStrategyMixed *)
Definition newMigStrategyMixedLabeler (nvmlLib : Nvml) (config : Config)
    : M Labeler :=
  let deviceInfo := NewDeviceInfo nvmlLib in
  (* Enumerate the MIG devices on this node. In mig.strategy=mixed we ignore
     devices configured with migEnabled=true but exposing no MIG devices. *)
  migs <- call CallGetAllMigDevices (GetAllMigDevices deviceInfo)
            orElse "unable to retrieve list of MIG devices: " ;;
  (* Add new MIG related labels on each individual MIG type *)
  resources <-
    countMigDevices (fun name => "nvidia.com/mig-" +:+ name) migs ∅ ;;
  newMIGDeviceLabelers resources config.

(** newMigLabeler creates a labeler for MIG devices.
    The labeler created depends on the migStrategy. *)
Definition newMigLabeler (nvmlLib : Nvml) (config : Config) : M Labeler :=
  let strategy := MigStrategy (Flags config) in
  labeler <-
    (if decide (strategy = MigStrategyNone) then ret empty
     else if decide (strategy = MigStrategySingle) then
       newMigStrategySingleLabeler nvmlLib config
         orElse "failed to create labeler for mig-strategy=single: "
     else if decide (strategy = MigStrategyMixed) then
       newMigStrategyMixedLabeler nvmlLib config
         orElse "failed to create labeler for mig-strategy=mixed: "
     else fail (Errorf "unknown strategy: " strategy)) ;;
  let labelers := Merge [migStrategyLabeler strategy; labeler] in
  ret labelers.

(** NewResourceLabeler creates a labeler for available GPU resources.
    These include full GPU labels as well as labels specific to the
    mig-strategy specified. *)
Definition NewResourceLabeler (nvmlLib : Nvml) (config : Config) : M Labeler :=
  count <- call CallGetDeviceCount (GetDeviceCount nvmlLib)
             orElse "error getting device count: " ;;
  (* If no GPUs are detected, we return an empty labeler *)
  if decide (count = 0) then ret empty else
  fullGPULabeler <- newGPULabelers nvmlLib config
                      orElse "failed to construct GPU labeler: " ;;
  if decide (MigStrategy (Flags config) = spec_MigStrategyNone) then
    ret fullGPULabeler
  else
  migLabeler <- newMigLabeler nvmlLib config
                  orElse "failed to construct MIG resource labeler: " ;;
  let labelers := Merge [fullGPULabeler; migLabeler] in
  ret labelers.

End Labelers.

(** ** What the labelers are compared with *)

(** The warning written for an invalid configuration, and its reasons. *)
Definition invalidWarning (reason : string) : string :=
  "WARNING: Invalid configuration detected for mig-strategy=single: "
  +:+ reason.

Definition reasonEmpty : string :=
  "at least one MIG device is enabled but empty".
Definition reasonMixedEnablement : string :=
  "devices with MIG enabled and disable detected".
Definition reasonMultipleTypes : string :=
  "more than one MIG device type present on node".

Global Instance result_eq_dec {A} `{EqDecision A} : EqDecision (result A).
Proof. solve_decision. Defined.

(** The MIG devices of [migs] whose canonical name is [k], and their
    number. *)
Definition migsOfProfile (k : string) (migs : list Device) : list Device :=
  filter (fun mig => outcome (getMigDeviceName mig) = Ok k) migs.

Definition occurrences (k : string) (migs : list Device) : nat :=
  length (migsOfProfile k migs).

(** The resource of the profile [k] after one more MIG device [mig] of
    that profile. *)
Definition countedOnce (resourceNameOf : string -> ResourceName) (k : string)
    (mig : Device) (resources : gmap string migResource) : migResource :=
  match resources !! k with
  | Some r => {| name := name r; device := device r; count := count r + 1 |}
  | None => {| name := resourceNameOf k; device := Some mig; count := 1 |}
  end.

(** ** The device inventory of package internal/mig *)

Definition rbind {A B} (r : result A) (k : A -> result B) : result B :=
  match r with Ok a => k a | Err e => Err e end.

Definition rmap {A B} (f : A -> B) (r : result A) : result B :=
  rbind r (fun a => Ok (f a)).

Fixpoint rmapM {A B} (f : A -> result B) (l : list A) : result (list B) :=
  match l with
  | [] => Ok []
  | a :: l => rbind (f a) (fun b => rbind (rmapM f l) (fun bs => Ok (b :: bs)))
  end.

Record DeviceInventory : Type := mkInventory {
  enabledDevices : list Device;
  disabledDevices : list Device;
  anyEmpty : bool;
  allMigDevices : list Device
}.

(** Modelled from the spec: the devices of the node, asked from the query
    facade by index, from 0 to the device count. *)
Definition listDevices (nvmlLib : Nvml) : result (list Device) :=
  rbind (GetDeviceCount nvmlLib) (fun count =>
  rmapM (NewDevice nvmlLib) (seqZ 0 count)).

(** Modelled from the spec: the partitioning-enabled flag of each device is
    read; devices with the flag set go into the enabled set, the others
    into the disabled set; a failed read fails the inventory. *)
Fixpoint classifyDevices (devices : list Device)
    : result (list Device * list Device) :=
  match devices with
  | [] => Ok ([], [])
  | d :: devices =>
      rbind (IsMigEnabled d) (fun isMigEnabled =>
      rbind (classifyDevices devices) (fun '(enabled, disabled) =>
      Ok (if isMigEnabled : bool then (d :: enabled, disabled)
          else (enabled, d :: disabled))))
  end.

(** Modelled from the spec: the inventory of package internal/mig (absent
    from this file). For every enabled device its list of MIG devices is
    read; "any empty" is set when that list is empty for at least one
    enabled device; all MIG devices of all enabled devices are collected in
    discovery order. The pass is total over the device list and fails on
    any failed read. *)
Definition buildInventory (devices : list Device) : result DeviceInventory :=
  rbind (classifyDevices devices) (fun '(enabled, disabled) =>
  rbind (rmapM GetMigDevices enabled) (fun partitions =>
  Ok {| enabledDevices := enabled;
        disabledDevices := disabled;
        anyEmpty := existsb (fun migs => bool_decide (length migs = 0%nat))
                            partitions;
        allMigDevices := concat partitions |})).

(** Modelled from the spec: [mig.NewDeviceInfo] (absent from this file);
    the four queries read the inventory built from the devices of the
    node. *)
Definition specNewDeviceInfo (nvmlLib : Nvml) : DeviceInfo :=
  let inventory := rbind (listDevices nvmlLib) buildInventory in
  {| GetDevicesWithMigEnabled := rmap enabledDevices inventory;
     AnyMigEnabledDeviceIsEmpty := rmap anyEmpty inventory;
     GetDevicesWithMigDisabled := rmap disabledDevices inventory;
     GetAllMigDevices := rmap allMigDevices inventory |}.

Definition specMig : MigPackage := {| NewDeviceInfo := specNewDeviceInfo |}.

(** ** Concrete nodes

    A node whose devices are listed, and a stand-in for the rest of package
    lm, to run the labelers on concrete nodes. *)

Definition nodeOf (devices : list Device) : Nvml :=
  {| GetDeviceCount := Ok (Z.of_nat (length devices));
     NewDevice := fun i =>
       if decide (0 <= i) then
         match devices !! Z.to_nat i with
         | Some d => Ok d
         | None => Err "invalid device index"
         end
       else Err "invalid device index" |}.

(** A MIG device of [g] slices and [m] MB of memory. *)
Definition migDevice (g m : Z) : Device :=
  mkDevice (Err "not supported on a MIG device")
           (Ok {| GpuInstanceSliceCount := g; MemorySizeMB := m |})
           (Err "not supported on a MIG device")
           (Err "not supported on a MIG device").

(** A GPU with MIG enabled and the given MIG devices. *)
Definition migEnabledGPU (model : string) (migs : list Device) : Device :=
  mkDevice (Ok model) (Err "not a MIG device") (Ok true) (Ok migs).

(** A GPU with MIG disabled. *)
Definition migDisabledGPU (model : string) : Device :=
  mkDevice (Ok model) (Err "not a MIG device") (Ok false) (Ok []).

Definition standInLabels (resource : ResourceName) (model : result string)
    (n : Z) : result Labeler :=
  rbind model (fun model =>
  Ok (ofLabels {[ resource +:+ ".product" := model;
                  resource +:+ ".count" := fmt_d n ]})).

Definition standInLm : LmPackage :=
  {| NewGPUResourceLabeler := fun _ d n =>
       standInLabels "nvidia.com/gpu" (GetName d) n;
     NewMIGResourceLabeler := fun r _ d n =>
       standInLabels r (Ok "MIG") n;
     migStrategyLabeler := fun s =>
       ofLabels {[ "nvidia.com/mig.strategy" := s ]};
     Merge := ofList;
     list_Labels := fun ls =>
       match ls with
       | [ofLabels l] => Ok l
       | _ => Ok ∅
       end;
     productLabel := fun rl model parts =>
       {[ resourceName rl +:+ ".product" :=
            fold_left (fun acc p => acc +:+ "-" +:+ p) parts model ]};
     labelKey := fun rl k => resourceName rl +:+ "." +:+ k |}.

(** ** Measures on the counted resources and on names *)

(** The sum of the counts of the resources. *)
Definition totalCount (resources : gmap string migResource) : Z :=
  map_fold (fun _ r acc => count r + acc) 0 resources.

(** The decimal digits, "0" to "9". *)
Definition isDigit (c : Ascii.ascii) : bool :=
  (48 <=? Ascii.nat_of_ascii c)%nat && (Ascii.nat_of_ascii c <=? 57)%nat.

Fixpoint allDigits (s : string) : bool :=
  match s with
  | EmptyString => true
  | String c s => isDigit c && allDigits s
  end.

(** A [DeviceInfo] whose MIG devices are gone between its queries: the
    GPU is enabled and not empty when asked, and no MIG device is listed
    afterwards. *)
Definition staleMig : MigPackage :=
  {| NewDeviceInfo := fun _ =>
       {| GetDevicesWithMigEnabled := Ok [migEnabledGPU "A100" []];
          AnyMigEnabledDeviceIsEmpty := Ok false;
          GetDevicesWithMigDisabled := Ok [];
          GetAllMigDevices := Ok [] |} |}.

(** * Properties *)

Lemma bind_call_Ok {A B} (ev : Event) (prefix : string) (r : result A) (a : A)
    (k : A -> M B) :
  r = Ok a ->
  bind (wrapErr prefix (call ev r)) k = after [ev] (k a).
Proof. intros ->. unfold after, trace, outcome. simpl. by destruct (k a). Qed.

Lemma bind_call_Err {A B} (ev : Event) (prefix : string) (r : result A)
    (e : error) (k : A -> M B) :
  r = Err e ->
  bind (wrapErr prefix (call ev r)) k = ([ev], Err (Errorf prefix e)).
Proof. by intros ->. Qed.

Lemma after_after {A} (t1 t2 : list Event) (m : M A) :
  after t1 (after t2 m) = after (t1 ++ t2) m.
Proof. unfold after, trace, outcome. simpl. by rewrite app_assoc. Qed.

(** ** The canonical name of a MIG device *)

Lemma uint64_ceil_no_wrap (m : Z) :
  0 <= m <= 2 ^ 64 - 1024 ->
  wrap_uint64 (wrap_uint64 (m + 1024) - 1) / 1024 = (m + 1023) / 1024.
Proof.
  intros Hm. unfold wrap_uint64, uint64_modulus.
  rewrite Zminus_mod_idemp_l.
  replace (m + 1024 - 1) with (m + 1023) by lia.
  by rewrite Z.mod_small by lia.
Qed.

(** C2, as amended. For a MIG device whose attributes are read, with slice
    count g and a memory size m of at most 2^64 - 1024 MB, the name is
    "{g}g.{gb}gb" where gb = floor((m + 1023) / 1024) is the ceiling of
    m / 1024; memory sizes 1024, 1025 and 20096 give 1, 2 and 20, and
    3 slices with 20096 MB give "3g.20gb". *)
Theorem getMigDeviceName_ceiling :
  (forall (mig : Device) (attr : DeviceAttributes),
     GetAttributes mig = Ok attr ->
     0 <= MemorySizeMB attr <= 2 ^ 64 - 1024 ->
     let g := GpuInstanceSliceCount attr in
     let gb := (MemorySizeMB attr + 1023) / 1024 in
     getMigDeviceName mig
       = ([CallGetAttributes], Ok (fmt_d g +:+ "g." +:+ fmt_d gb +:+ "gb"))
     /\ 1024 * (gb - 1) < MemorySizeMB attr <= 1024 * gb)
  /\ (forall g : Z,
        outcome (getMigDeviceName (migDevice g 1024))
          = Ok (fmt_d g +:+ "g.1gb")
        /\ outcome (getMigDeviceName (migDevice g 1025))
             = Ok (fmt_d g +:+ "g.2gb")
        /\ outcome (getMigDeviceName (migDevice g 20096))
             = Ok (fmt_d g +:+ "g.20gb"))
  /\ outcome (getMigDeviceName (migDevice 3 20096)) = Ok "3g.20gb".
Proof.
  split; [|split].
  - intros mig attr Hattr Hm g gb. split.
    + unfold getMigDeviceName. rewrite Hattr. simpl.
      by rewrite uint64_ceil_no_wrap.
    + subst gb. split.
      * pose proof (Z.mod_pos_bound (MemorySizeMB attr + 1023) 1024 eq_refl).
        pose proof (Z.div_mod (MemorySizeMB attr + 1023) 1024 ltac:(lia)). lia.
      * pose proof (Z.mod_pos_bound (MemorySizeMB attr + 1023) 1024 eq_refl).
        pose proof (Z.div_mod (MemorySizeMB attr + 1023) 1024 ltac:(lia)). lia.
  - intros g. repeat split.
  - reflexivity.
Qed.

Lemma getMigDeviceName_ceiling_witness :
  getMigDeviceName (migDevice 7 40192) = ([CallGetAttributes], Ok "7g.40gb").
Proof.
  destruct getMigDeviceName_ceiling as [H _].
  destruct (H (migDevice 7 40192)
              {| GpuInstanceSliceCount := 7; MemorySizeMB := 40192 |}
              eq_refl) as [Hname _]; [simpl; lia|].
  exact Hname.
Defined.

(** C2, as stated, fails where the addition wraps: a memory size of
    2^64 - 1 MB is a value of the field, and the name has 0 as its GB
    component while floor((m + 1023) / 1024) is 2^54. *)
Lemma getMigDeviceName_wraps :
  let m := 2 ^ 64 - 1 in
  attributes_in_range {| GpuInstanceSliceCount := 1; MemorySizeMB := m |}
  /\ 0 < m
  /\ (m + 1023) / 1024 = 2 ^ 54
  /\ getMigDeviceName (migDevice 1 m) = ([CallGetAttributes], Ok "1g.0gb")
  /\ outcome (getMigDeviceName (migDevice 1 m))
       <> Ok (fmt_d 1 +:+ "g." +:+ fmt_d ((m + 1023) / 1024) +:+ "gb").
Proof.
  repeat split; try (simpl; lia); try (vm_compute; congruence).
Qed.

(** ** The choice of the labeler *)

(** An event is none of the events of an explicit trace. *)
Ltac not_in_trace :=
  unfold after, trace; simpl;
  rewrite ?elem_of_cons, ?elem_of_nil; intuition congruence.

Section Strategy.
Context `{lmPkg : LmPackage} `{migPkg : MigPackage}.

(** C9. With a device count of zero, NewResourceLabeler returns the empty
    labeler and no error for every configuration, whatever its strategy:
    the count is the only call made. *)
Theorem NewResourceLabeler_no_devices (nvmlLib : Nvml) (config : Config) :
  GetDeviceCount nvmlLib = Ok 0 ->
  NewResourceLabeler nvmlLib config = ([CallGetDeviceCount], Ok empty).
Proof.
  intros Hcount. unfold NewResourceLabeler.
  rewrite (bind_call_Ok _ _ _ 0) by done.
  by rewrite decide_True.
Qed.

Lemma newMigLabeler_unknown (nvmlLib : Nvml) (config : Config) :
  MigStrategy (Flags config) <> MigStrategyNone ->
  MigStrategy (Flags config) <> MigStrategySingle ->
  MigStrategy (Flags config) <> MigStrategyMixed ->
  newMigLabeler nvmlLib config
    = ([], Err (Errorf "unknown strategy: " (MigStrategy (Flags config)))).
Proof.
  intros Hnone Hsingle Hmixed. unfold newMigLabeler.
  by rewrite !decide_False.
Qed.

(** C3, as amended. For a strategy that is none of "none", "single" and
    "mixed", newMigLabeler fails with the error "unknown strategy", makes
    no call and substitutes no strategy; NewResourceLabeler returns that
    error once the device count was read and is not zero and the labeler
    of the full GPUs was constructed, after the calls these make. *)
Theorem unknown_strategy_fails (nvmlLib : Nvml) (config : Config) :
  MigStrategy (Flags config) <> MigStrategyNone ->
  MigStrategy (Flags config) <> MigStrategySingle ->
  MigStrategy (Flags config) <> MigStrategyMixed ->
  newMigLabeler nvmlLib config
    = ([], Err (Errorf "unknown strategy: " (MigStrategy (Flags config))))
  /\ (forall (count : Z) (t : list Event) (fullGPULabeler : Labeler),
        GetDeviceCount nvmlLib = Ok count ->
        count <> 0 ->
        newGPULabelers nvmlLib config = (t, Ok fullGPULabeler) ->
        NewResourceLabeler nvmlLib config
          = (CallGetDeviceCount :: t,
             Err (Errorf "failed to construct MIG resource labeler: "
                    (Errorf "unknown strategy: "
                       (MigStrategy (Flags config)))))).
Proof.
  intros Hnone Hsingle Hmixed.
  split; [by apply newMigLabeler_unknown|].
  intros count t fullGPULabeler Hcount Hnz Hgpu.
  unfold NewResourceLabeler.
  rewrite (bind_call_Ok _ _ _ count) by done.
  rewrite decide_False by done.
  rewrite Hgpu. simpl.
  rewrite decide_False by done.
  rewrite newMigLabeler_unknown by done. simpl.
  by rewrite app_nil_r.
Qed.

(** C10. For a device count n of at least 1, newGPULabelers asks for the
    device of index 0 and for no other: two nodes with the same count and
    the same device 0 give the same calls and the same result, whatever
    their other devices are. *)
Theorem newGPULabelers_first_device_only (lib1 lib2 : Nvml) (config : Config)
    (n : Z) :
  GetDeviceCount lib1 = Ok n ->
  GetDeviceCount lib2 = Ok n ->
  1 <= n ->
  NewDevice lib1 0 = NewDevice lib2 0 ->
  newGPULabelers lib1 config = newGPULabelers lib2 config
  /\ (forall i : Z, i <> 0 ->
        CallNewDevice i ∉ trace (newGPULabelers lib1 config))
  /\ (forall device : Device,
        NewDevice lib1 0 = Ok device ->
        newGPULabelers lib1 config
          = after [CallGetDeviceCount; CallNewDevice 0]
              (l <- call CallNewGPUResourceLabeler
                      (NewGPUResourceLabeler config device (int_of_uint n))
                      orElse "failed to construct labeler: " ;;
               labels <- call CallLabels (list_Labels [l]) ;;
               ret (ofLabels labels))).
Proof.
  intros Hc1 Hc2 Hn Hdev.
  assert (Hshape : forall lib, GetDeviceCount lib = Ok n ->
    newGPULabelers lib config
    = after [CallGetDeviceCount]
        (labelers <-
           (device <- call (CallNewDevice 0) (NewDevice lib 0)
                        orElse "error getting device: " ;;
            l <- call CallNewGPUResourceLabeler
                   (NewGPUResourceLabeler config device (int_of_uint n))
                   orElse "failed to construct labeler: " ;;
            ret [l]) ;;
         labels <- call CallLabels (list_Labels labelers) ;;
         ret (ofLabels labels))).
  { intros lib Hc. unfold newGPULabelers.
    rewrite (bind_call_Ok _ _ _ n) by done.
    rewrite decide_False by lia. by rewrite decide_True by lia. }
  split; [|split].
  - rewrite !Hshape by done. by rewrite Hdev.
  - intros i Hi. rewrite Hshape by done.
    destruct (NewDevice lib1 0) as [device|e]; simpl.
    + destruct (NewGPUResourceLabeler config device (int_of_uint n)); simpl.
      * destruct (list_Labels [a]); simpl; not_in_trace.
      * not_in_trace.
    + not_in_trace.
  - intros device Hd. rewrite Hshape by done. rewrite Hd. simpl.
    destruct (NewGPUResourceLabeler config device (int_of_uint n)); simpl.
    + by destruct (list_Labels [a]).
    + done.
Qed.

(** ** The invalid configuration of the single strategy *)

Lemma newInvalidMigStrategyLabeler_logged (nvml : Nvml) (reason : string) :
  logged (trace (newInvalidMigStrategyLabeler nvml reason))
    = [invalidWarning reason].
Proof.
  unfold newInvalidMigStrategyLabeler.
  destruct (NewDevice nvml 0) as [device|e]; simpl; [|done].
  by destruct (GetName device).
Qed.

Lemma getMigDeviceName_trace (mig : Device) :
  trace (getMigDeviceName mig) = [CallGetAttributes].
Proof. unfold getMigDeviceName. by destruct (GetAttributes mig). Qed.

Lemma countMigDevices_cons_Ok (resourceNameOf : string -> ResourceName)
    (mig : Device) (migs : list Device) (resources : gmap string migResource)
    (k : string) :
  outcome (getMigDeviceName mig) = Ok k ->
  countMigDevices resourceNameOf (mig :: migs) resources
    = after [CallGetAttributes]
        (countMigDevices resourceNameOf migs
           (<[k := countedOnce resourceNameOf k mig resources]> resources)).
Proof.
  intros Hk. pose proof (getMigDeviceName_trace mig) as Ht.
  simpl. destruct (getMigDeviceName mig) as [t [k'|e]]; simpl in *; [|done].
  injection Hk as ->. subst t. unfold countedOnce.
  destruct (resources !! k) as [r|]; simpl;
    by destruct (countMigDevices _ _ _).
Qed.

Lemma countMigDevices_cons_Err (resourceNameOf : string -> ResourceName)
    (mig : Device) (migs : list Device) (resources : gmap string migResource)
    (e : error) :
  outcome (getMigDeviceName mig) = Err e ->
  countMigDevices resourceNameOf (mig :: migs) resources
    = ([CallGetAttributes],
       Err (Errorf "unable to parse MIG device name: " e)).
Proof.
  intros He. pose proof (getMigDeviceName_trace mig) as Ht.
  simpl. destruct (getMigDeviceName mig) as [t [k'|e']]; simpl in *; [done|].
  injection He as ->. by subst t.
Qed.

Lemma countMigDevices_logged (resourceNameOf : string -> ResourceName)
    (migs : list Device) (resources : gmap string migResource) :
  logged (trace (countMigDevices resourceNameOf migs resources)) = [].
Proof.
  revert resources.
  induction migs as [|m migs IH]; intros resources; [done|].
  destruct (outcome (getMigDeviceName m)) as [k|e] eqn:Hk.
  - rewrite (countMigDevices_cons_Ok _ _ _ _ k) by done. apply IH.
  - by rewrite (countMigDevices_cons_Err _ _ _ _ e).
Qed.

Lemma newMIGDeviceLabelers_outcome (resources : gmap string migResource)
    (config : Config) (l : Labeler) :
  outcome (newMIGDeviceLabelers resources config) = Ok l ->
  exists labelers, l = ofList labelers.
Proof.
  unfold newMIGDeviceLabelers.
  destruct (newMIGDeviceLabelers_loop _ _ _) as [t [labelers|e]]; simpl.
  - intros [= <-]. eauto.
  - done.
Qed.

Lemma bind_Ok {A B} (t : list Event) (a : A) (k : A -> M B) :
  bind (t, Ok a) k = after t (k a).
Proof. unfold after, trace, outcome. simpl. by destruct (k a). Qed.

Lemma trace_after {A} (t : list Event) (m : M A) :
  trace (after t m) = t ++ trace m.
Proof. done. Qed.

Lemma outcome_after {A} (t : list Event) (m : M A) :
  outcome (after t m) = outcome m.
Proof. done. Qed.

Lemma logged_app (t1 t2 : list Event) :
  logged (t1 ++ t2) = logged t1 ++ logged t2.
Proof. unfold logged. apply omap_app. Qed.

(** The single labeler once the four queries have answered and the MIG
    devices are counted. *)
Lemma single_after_counting (nvmlLib : Nvml) (config : Config)
    (d : Device) (ds migs : list Device) (t : list Event)
    (resources : gmap string migResource) :
  GetDevicesWithMigEnabled (NewDeviceInfo nvmlLib) = Ok (d :: ds) ->
  AnyMigEnabledDeviceIsEmpty (NewDeviceInfo nvmlLib) = Ok false ->
  GetDevicesWithMigDisabled (NewDeviceInfo nvmlLib) = Ok [] ->
  GetAllMigDevices (NewDeviceInfo nvmlLib) = Ok migs ->
  countMigDevices (fun _ => "nvidia.com/gpu") migs ∅ = (t, Ok resources) ->
  newMigStrategySingleLabeler nvmlLib config
    = after ([CallGetDevicesWithMigEnabled; CallAnyMigEnabledDeviceIsEmpty;
              CallGetDevicesWithMigDisabled; CallGetAllMigDevices] ++ t)
        (if decide (size resources ≠ 1%nat)
         then newInvalidMigStrategyLabeler nvmlLib reasonMultipleTypes
         else newMIGDeviceLabelers resources config).
Proof.
  intros Hen Hempty Hdis Hall Hcount. unfold newMigStrategySingleLabeler.
  rewrite (bind_call_Ok _ _ _ (d :: ds)) by done.
  rewrite decide_False by done.
  rewrite (bind_call_Ok _ _ _ false) by done.
  rewrite (bind_call_Ok _ _ _ []) by done.
  rewrite decide_False by (intros Hn; by apply Hn).
  rewrite (bind_call_Ok _ _ _ migs) by done.
  rewrite Hcount, bind_Ok.
  by rewrite !after_after.
Qed.

(** C4. Under the single strategy, when no device has MIG enabled, the
    labeler of the MIG resources is the empty labeler, without error and
    without a warning, as it is under the none strategy. *)
Theorem single_without_mig_enabled (nvmlLib : Nvml) (config : Config) :
  GetDevicesWithMigEnabled (NewDeviceInfo nvmlLib) = Ok [] ->
  newMigStrategySingleLabeler nvmlLib config
    = ([CallGetDevicesWithMigEnabled], Ok empty)
  /\ (MigStrategy (Flags config) = MigStrategySingle ->
      newMigLabeler nvmlLib config
        = ([CallGetDevicesWithMigEnabled],
           Ok (Merge [migStrategyLabeler MigStrategySingle; empty])))
  /\ (forall config' : Config,
        MigStrategy (Flags config') = MigStrategyNone ->
        newMigLabeler nvmlLib config'
          = ([], Ok (Merge [migStrategyLabeler MigStrategyNone; empty]))).
Proof.
  intros Hen.
  assert (Hsingle : newMigStrategySingleLabeler nvmlLib config
                    = ([CallGetDevicesWithMigEnabled], Ok empty)).
  { unfold newMigStrategySingleLabeler.
    rewrite (bind_call_Ok _ _ _ []) by done.
    by rewrite decide_True. }
  split; [done|split].
  - intros Hs. unfold newMigLabeler. rewrite Hs.
    rewrite decide_False by done. rewrite decide_True by done.
    by rewrite Hsingle.
  - intros config' Hs. unfold newMigLabeler. rewrite Hs.
    by rewrite decide_True.
Qed.

(** C5. The labeler of an invalid configuration writes one warning, which
    carries the reason, to the log. With the name of device 0 read as the
    model, its labels are the product labels of "nvidia.com/gpu" for the
    model with the parts "MIG" and "INVALID", with count and memory set to
    0; it fails when the model cannot be read. Under the single strategy, a
    label set is returned for an invalid configuration only, with one
    warning for one of the three reasons. *)
Theorem newInvalidMigStrategyLabeler_labels (nvml : Nvml) (reason : string) :
  let rl := {| resourceName := "nvidia.com/gpu" |} in
  logged (trace (newInvalidMigStrategyLabeler nvml reason))
    = [invalidWarning reason]
  /\ (forall (device : Device) (model : string),
        NewDevice nvml 0 = Ok device ->
        GetName device = Ok model ->
        exists labels : gmap string string,
          newInvalidMigStrategyLabeler nvml reason
            = ([LogPrintf (invalidWarning reason); CallNewDevice 0;
                CallGetName],
               Ok (ofLabels labels))
          /\ labels !! labelKey rl "count" = Some "0"
          /\ labels !! labelKey rl "memory" = Some "0"
          /\ forall k : string,
               k <> labelKey rl "count" -> k <> labelKey rl "memory" ->
               labels !! k = productLabel rl model ["MIG"; "INVALID"] !! k)
  /\ (forall (device : Device) (e : error),
        NewDevice nvml 0 = Ok device ->
        GetName device = Err e ->
        outcome (newInvalidMigStrategyLabeler nvml reason)
          = Err (Errorf "failed to get device model: " e))
  /\ (forall (config : Config) (labels : gmap string string),
        outcome (newMigStrategySingleLabeler nvml config)
          = Ok (ofLabels labels) ->
        exists r : string,
          (r = reasonEmpty \/ r = reasonMixedEnablement
           \/ r = reasonMultipleTypes)
          /\ logged (trace (newMigStrategySingleLabeler nvml config))
               = [invalidWarning r]).
Proof.
  intros rl. split; [apply newInvalidMigStrategyLabeler_logged|].
  split; [|split].
  - intros device model Hdev Hname. eexists. split.
    + unfold newInvalidMigStrategyLabeler. rewrite Hdev. simpl.
      rewrite Hname. simpl. reflexivity.
    + unfold updateLabel. fold rl. split; [|split].
      * rewrite lookup_insert.
        destruct (decide (labelKey rl "memory" = labelKey rl "count"));
          [done|]. by rewrite lookup_insert_eq.
      * by rewrite lookup_insert_eq.
      * intros k Hc Hm. by rewrite !lookup_insert_ne.
  - intros device e Hdev Hname.
    unfold newInvalidMigStrategyLabeler. rewrite Hdev. simpl.
    by rewrite Hname.
  - intros config labels. unfold newMigStrategySingleLabeler.
    destruct (GetDevicesWithMigEnabled (NewDeviceInfo nvml))
      as [[|d ds]|e] eqn:Hen; [done| |done].
    rewrite (bind_call_Ok _ _ _ (d :: ds)) by done.
    rewrite decide_False by done.
    destruct (AnyMigEnabledDeviceIsEmpty (NewDeviceInfo nvml))
      as [[|]|e] eqn:Hempty; [| |done].
    { rewrite (bind_call_Ok _ _ _ true) by done. intros _.
      exists reasonEmpty. split; [auto|].
      rewrite !after_after, trace_after, logged_app. simpl.
      apply newInvalidMigStrategyLabeler_logged. }
    rewrite (bind_call_Ok _ _ _ false) by done.
    destruct (GetDevicesWithMigDisabled (NewDeviceInfo nvml))
      as [[|x xs]|e] eqn:Hdis; [|
        rewrite (bind_call_Ok _ _ _ (x :: xs)) by done;
        rewrite decide_True by done | done].
    2:{ intros _. exists reasonMixedEnablement. split; [auto|].
        rewrite !after_after, trace_after, logged_app. simpl.
        apply newInvalidMigStrategyLabeler_logged. }
    rewrite (bind_call_Ok _ _ _ []) by done.
    rewrite decide_False by (intros Hn; by apply Hn).
    destruct (GetAllMigDevices (NewDeviceInfo nvml)) as [migs|e] eqn:Hall;
      [|done].
    rewrite (bind_call_Ok _ _ _ migs) by done.
    pose proof (countMigDevices_logged (fun _ => "nvidia.com/gpu") migs ∅)
      as Hlog.
    destruct (countMigDevices _ migs ∅) as [t [resources|e]]; [|done].
    rewrite bind_Ok, !after_after.
    destruct (decide (size resources ≠ 1%nat)) as [Hsize|Hsize].
    + intros _. exists reasonMultipleTypes. split; [auto|].
      rewrite trace_after, !logged_app. simpl in Hlog. rewrite Hlog.
      simpl. apply newInvalidMigStrategyLabeler_logged.
    + intros Hout. exfalso.
      unfold after, outcome in Hout. simpl in Hout.
      pose proof (newMIGDeviceLabelers_outcome resources config) as Hl.
      destruct (newMIGDeviceLabelers resources config) as [t' [l|e]];
        simpl in *; [|done].
      destruct (Hl l eq_refl) as [labelers ->]. congruence.
Qed.

(** ** The order of the checks of the single strategy *)

Lemma single_empty_first (nvmlLib : Nvml) (config : Config)
    (d : Device) (ds : list Device) :
  GetDevicesWithMigEnabled (NewDeviceInfo nvmlLib) = Ok (d :: ds) ->
  AnyMigEnabledDeviceIsEmpty (NewDeviceInfo nvmlLib) = Ok true ->
  newMigStrategySingleLabeler nvmlLib config
    = after [CallGetDevicesWithMigEnabled; CallAnyMigEnabledDeviceIsEmpty]
        (newInvalidMigStrategyLabeler nvmlLib reasonEmpty).
Proof.
  intros Hen Hempty. unfold newMigStrategySingleLabeler.
  rewrite (bind_call_Ok _ _ _ (d :: ds)) by done.
  rewrite decide_False by done.
  rewrite (bind_call_Ok _ _ _ true) by done.
  by rewrite after_after.
Qed.

Lemma single_mixed_enablement_second (nvmlLib : Nvml) (config : Config)
    (d x : Device) (ds xs : list Device) :
  GetDevicesWithMigEnabled (NewDeviceInfo nvmlLib) = Ok (d :: ds) ->
  AnyMigEnabledDeviceIsEmpty (NewDeviceInfo nvmlLib) = Ok false ->
  GetDevicesWithMigDisabled (NewDeviceInfo nvmlLib) = Ok (x :: xs) ->
  newMigStrategySingleLabeler nvmlLib config
    = after [CallGetDevicesWithMigEnabled; CallAnyMigEnabledDeviceIsEmpty;
             CallGetDevicesWithMigDisabled]
        (newInvalidMigStrategyLabeler nvmlLib reasonMixedEnablement).
Proof.
  intros Hen Hempty Hdis. unfold newMigStrategySingleLabeler.
  rewrite (bind_call_Ok _ _ _ (d :: ds)) by done.
  rewrite decide_False by done.
  rewrite (bind_call_Ok _ _ _ false) by done.
  rewrite (bind_call_Ok _ _ _ (x :: xs)) by done.
  rewrite decide_True by done.
  by rewrite !after_after.
Qed.

(** The calls of the labeler of an invalid configuration: the log, the
    device 0 and its name. *)
Lemma newInvalidMigStrategyLabeler_trace (nvml : Nvml) (reason : string)
    (ev : Event) :
  ev ∈ trace (newInvalidMigStrategyLabeler nvml reason) ->
  ev = LogPrintf (invalidWarning reason) \/ ev = CallNewDevice 0
  \/ ev = CallGetName.
Proof.
  unfold newInvalidMigStrategyLabeler.
  destruct (NewDevice nvml 0) as [device|e]; simpl.
  - destruct (GetName device); simpl;
      rewrite ?elem_of_cons, ?elem_of_nil; intuition.
  - rewrite ?elem_of_cons, ?elem_of_nil; intuition.
Qed.

Lemma countMigDevices_trace (resourceNameOf : string -> ResourceName)
    (migs : list Device) (resources : gmap string migResource) (ev : Event) :
  ev ∈ trace (countMigDevices resourceNameOf migs resources) ->
  ev = CallGetAttributes.
Proof.
  revert resources.
  induction migs as [|m migs IH]; intros resources.
  - simpl. by rewrite elem_of_nil.
  - destruct (outcome (getMigDeviceName m)) as [k|e] eqn:Hk.
    + rewrite (countMigDevices_cons_Ok _ _ _ _ k) by done.
      rewrite trace_after. simpl. rewrite elem_of_cons.
      intros [->|Hin]; [done|]. by eapply IH.
    + rewrite (countMigDevices_cons_Err _ _ _ _ e) by done.
      simpl. rewrite elem_of_cons, elem_of_nil. intuition.
Qed.

(** ** Counting the MIG devices by name *)

Lemma migResource_eta (r : migResource) :
  {| name := name r; device := device r; count := count r + Z.of_nat 0 |} = r.
Proof. destruct r. simpl. f_equal. lia. Qed.

Lemma countMigDevices_lookup (resourceNameOf : string -> ResourceName)
    (migs : list Device) (resources0 resources : gmap string migResource)
    (t : list Event) (k : string) :
  countMigDevices resourceNameOf migs resources0 = (t, Ok resources) ->
  resources !! k
    = match resources0 !! k with
      | Some r => Some {| name := name r; device := device r;
                          count := count r + Z.of_nat (occurrences k migs) |}
      | None =>
          match migsOfProfile k migs with
          | [] => None
          | mig :: _ => Some {| name := resourceNameOf k; device := Some mig;
                                count := Z.of_nat (occurrences k migs) |}
          end
      end.
Proof.
  revert resources0 t.
  induction migs as [|m migs IH]; intros resources0 t Hcount.
  - injection Hcount as <- <-. unfold occurrences. simpl.
    destruct (resources0 !! k) as [r|]; [|done].
    by rewrite migResource_eta.
  - destruct (outcome (getMigDeviceName m)) as [k'|e] eqn:Hk;
      [|by rewrite (countMigDevices_cons_Err _ _ _ _ e) in Hcount].
    rewrite (countMigDevices_cons_Ok _ _ _ _ k') in Hcount by done.
    destruct (countMigDevices _ migs _) as [t' r'] eqn:Hrest.
    unfold after, trace, outcome in Hcount. simpl in Hcount.
    injection Hcount as <- ->.
    rewrite (IH _ _ Hrest). unfold occurrences, migsOfProfile.
    destruct (decide (k' = k)) as [->|Hne].
    + rewrite lookup_insert_eq, filter_cons_True by done.
      unfold countedOnce. simpl length.
      destruct (resources0 !! k) as [r|]; simpl; do 2 f_equal; lia.
    + rewrite lookup_insert_ne by done.
      rewrite filter_cons_False by congruence. done.
Qed.

Lemma countMigDevices_total (resourceNameOf : string -> ResourceName)
    (migs : list Device) (resources0 : gmap string migResource) :
  Forall (fun mig => exists attr, GetAttributes mig = Ok attr) migs ->
  exists resources,
    countMigDevices resourceNameOf migs resources0
      = (replicate (length migs) CallGetAttributes, Ok resources).
Proof.
  intros Hall. revert resources0.
  induction Hall as [|m migs [attr Hattr] _ IH]; intros resources0.
  - by exists resources0.
  - assert (exists k, outcome (getMigDeviceName m) = Ok k) as [k Hk].
    { unfold getMigDeviceName. rewrite Hattr. simpl. eauto. }
    rewrite (countMigDevices_cons_Ok _ _ _ _ k) by done.
    destruct (IH (<[k := countedOnce resourceNameOf k m resources0]>
                    resources0)) as [resources ->].
    by exists resources.
Qed.

Lemma countMigDevices_from_empty (resourceNameOf : string -> ResourceName)
    (migs : list Device) (resources : gmap string migResource)
    (t : list Event) (k : string) (r : migResource) :
  countMigDevices resourceNameOf migs ∅ = (t, Ok resources) ->
  resources !! k = Some r ->
  name r = resourceNameOf k
  /\ count r = Z.of_nat (occurrences k migs)
  /\ (0 < occurrences k migs)%nat
  /\ device r = head (migsOfProfile k migs).
Proof.
  intros Hcount. rewrite (countMigDevices_lookup _ _ _ _ _ k Hcount).
  rewrite lookup_empty. unfold occurrences.
  destruct (migsOfProfile k migs) as [|mig rest]; [done|].
  intros [= <-]. simpl. repeat split. lia.
Qed.

Lemma countMigDevices_occurs (resourceNameOf : string -> ResourceName)
    (migs : list Device) (resources : gmap string migResource)
    (t : list Event) (k : string) :
  countMigDevices resourceNameOf migs ∅ = (t, Ok resources) ->
  (0 < occurrences k migs)%nat ->
  exists r, resources !! k = Some r.
Proof.
  intros Hcount. rewrite (countMigDevices_lookup _ _ _ _ _ k Hcount).
  rewrite lookup_empty. unfold occurrences.
  destruct (migsOfProfile k migs) as [|mig rest]; simpl; [lia|eauto].
Qed.

Lemma countMigDevices_nonempty (resourceNameOf : string -> ResourceName)
    (migs : list Device) (resources : gmap string migResource)
    (t : list Event) :
  migs <> [] ->
  countMigDevices resourceNameOf migs ∅ = (t, Ok resources) ->
  (0 < size resources)%nat.
Proof.
  intros Hne Hcount. destruct migs as [|m migs]; [done|].
  destruct (outcome (getMigDeviceName m)) as [k|e] eqn:Hk;
    [|by rewrite (countMigDevices_cons_Err _ _ _ _ e) in Hcount].
  destruct (countMigDevices_occurs _ _ _ _ k Hcount) as [r Hr].
  { unfold occurrences, migsOfProfile. rewrite filter_cons_True by done.
    simpl. lia. }
  destruct (decide (size resources = 0%nat)) as [Hz|]; [|lia].
  apply map_size_empty_iff in Hz. subst resources.
  by rewrite lookup_empty in Hr.
Qed.

(** ** The mixed strategy *)

Lemma mixed_after_counting (nvmlLib : Nvml) (config : Config)
    (migs : list Device) (t : list Event)
    (resources : gmap string migResource) :
  GetAllMigDevices (NewDeviceInfo nvmlLib) = Ok migs ->
  countMigDevices (fun k => "nvidia.com/mig-" +:+ k) migs ∅
    = (t, Ok resources) ->
  newMigStrategyMixedLabeler nvmlLib config
    = after (CallGetAllMigDevices :: t)
        (newMIGDeviceLabelers resources config).
Proof.
  intros Hall Hcount. unfold newMigStrategyMixedLabeler.
  rewrite (bind_call_Ok _ _ _ migs) by done.
  rewrite Hcount, bind_Ok. by rewrite after_after.
Qed.

Lemma newMIGDeviceLabelers_loop_logged (config : Config)
    (resources : list (string * migResource)) (labelers : list Labeler) :
  logged (trace (newMIGDeviceLabelers_loop config resources labelers)) = [].
Proof.
  revert labelers.
  induction resources as [|[k r] resources IH]; intros labelers; [done|].
  simpl.
  destruct (NewMIGResourceLabeler (name r) config (device r) (count r))
    as [l|e]; simpl; [|done].
  specialize (IH (labelers ++ [l])).
  by destruct (newMIGDeviceLabelers_loop _ _ _).
Qed.

Lemma newMIGDeviceLabelers_logged (resources : gmap string migResource)
    (config : Config) :
  logged (trace (newMIGDeviceLabelers resources config)) = [].
Proof.
  unfold newMIGDeviceLabelers.
  pose proof (newMIGDeviceLabelers_loop_logged config
                (map_to_list resources) []) as Hlog.
  destruct (newMIGDeviceLabelers_loop _ _ _) as [t [ls|e]]; simpl in *;
    [|done].
  by rewrite app_nil_r.
Qed.

Lemma newMIGDeviceLabelers_loop_trace (config : Config)
    (resources : list (string * migResource)) (labelers : list Labeler)
    (ev : Event) :
  ev ∈ trace (newMIGDeviceLabelers_loop config resources labelers) ->
  ev = CallNewMIGResourceLabeler.
Proof.
  revert labelers.
  induction resources as [|[k r] resources IH]; intros labelers.
  - simpl. by rewrite elem_of_nil.
  - simpl.
    destruct (NewMIGResourceLabeler (name r) config (device r) (count r))
      as [l|e]; simpl.
    + specialize (IH (labelers ++ [l])).
      destruct (newMIGDeviceLabelers_loop _ _ _) as [t' r']. simpl in *.
      rewrite elem_of_cons. intros [->|Hin]; [done|]. by apply IH.
    + rewrite elem_of_cons, elem_of_nil. intuition.
Qed.

Lemma newMIGDeviceLabelers_trace (resources : gmap string migResource)
    (config : Config) (ev : Event) :
  ev ∈ trace (newMIGDeviceLabelers resources config) ->
  ev = CallNewMIGResourceLabeler.
Proof.
  unfold newMIGDeviceLabelers.
  pose proof (newMIGDeviceLabelers_loop_trace config
                (map_to_list resources) [] ev) as Hloop.
  destruct (newMIGDeviceLabelers_loop _ _ _) as [t [ls|e]]; simpl in *;
    [|done].
  by rewrite app_nil_r.
Qed.

(** The mixed labeler asks the inventory for the MIG devices only. *)
Lemma mixed_trace (nvmlLib : Nvml) (config : Config) (ev : Event) :
  ev ∈ trace (newMigStrategyMixedLabeler nvmlLib config) ->
  ev = CallGetAllMigDevices \/ ev = CallGetAttributes
  \/ ev = CallNewMIGResourceLabeler.
Proof.
  unfold newMigStrategyMixedLabeler.
  destruct (GetAllMigDevices (NewDeviceInfo nvmlLib)) as [migs|e] eqn:Hall.
  - rewrite (bind_call_Ok _ _ _ migs) by done.
    pose proof (countMigDevices_trace (fun k => "nvidia.com/mig-" +:+ k)
                  migs ∅ ev) as Hcount.
    destruct (countMigDevices _ migs ∅) as [t [resources|e]].
    + rewrite bind_Ok, after_after, trace_after.
      rewrite !elem_of_app, elem_of_cons, elem_of_nil.
      intros [[[->|[]]|Hin]|Hin]; [by left|right; left; by apply Hcount|].
      right. right. by eapply newMIGDeviceLabelers_trace.
    + simpl in *. rewrite elem_of_cons.
      intros [->|Hin]; [by left|right; left; by apply Hcount].
  - rewrite (bind_call_Err _ _ _ e) by done. simpl.
    rewrite elem_of_cons, elem_of_nil. intuition.
Qed.

Lemma mixed_never_invalid (nvmlLib : Nvml) (config : Config) :
  logged (trace (newMigStrategyMixedLabeler nvmlLib config)) = []
  /\ forall labels,
       outcome (newMigStrategyMixedLabeler nvmlLib config)
         <> Ok (ofLabels labels).
Proof.
  unfold newMigStrategyMixedLabeler.
  destruct (GetAllMigDevices (NewDeviceInfo nvmlLib)) as [migs|e] eqn:Hall;
    [|by rewrite (bind_call_Err _ _ _ e)].
  rewrite (bind_call_Ok _ _ _ migs) by done.
  pose proof (countMigDevices_logged (fun k => "nvidia.com/mig-" +:+ k)
                migs ∅) as Hlog.
  destruct (countMigDevices _ migs ∅) as [t [resources|e]]; [|by split].
  rewrite bind_Ok, after_after. split.
  - rewrite trace_after, !logged_app. simpl in Hlog. rewrite Hlog. simpl.
    apply newMIGDeviceLabelers_logged.
  - intros labels. rewrite outcome_after. intros Hout.
    by destruct (newMIGDeviceLabelers_outcome _ _ _ Hout).
Qed.



End Strategy.

(** ** The inventory *)

Lemma rmapM_app {A B} (f : A -> result B) (l1 l2 : list A) :
  rmapM f (l1 ++ l2)
  = rbind (rmapM f l1) (fun bs1 =>
    rbind (rmapM f l2) (fun bs2 => Ok (bs1 ++ bs2))).
Proof.
  induction l1 as [|a l1 IH]; simpl.
  - by destruct (rmapM f l2).
  - destruct (f a) as [b|e]; simpl; [|done]. rewrite IH.
    destruct (rmapM f l1) as [bs1|e]; simpl; [|done].
    by destruct (rmapM f l2).
Qed.

Lemma rmapM_length {A B} (f : A -> result B) (l : list A) (bs : list B) :
  rmapM f l = Ok bs -> length bs = length l.
Proof.
  revert bs. induction l as [|a l IH]; intros bs; simpl.
  - by intros [= <-].
  - destruct (f a) as [b|e]; simpl; [|done].
    destruct (rmapM f l) as [bs'|e]; simpl; [|done].
    intros [= <-]. simpl. by rewrite (IH bs').
Qed.

Lemma nodeOf_devices_from (pre rest : list Device) :
  rmapM (NewDevice (nodeOf (pre ++ rest)))
        (seqZ (Z.of_nat (length pre)) (Z.of_nat (length rest)))
  = Ok rest.
Proof.
  revert pre. induction rest as [|d rest IH]; intros pre; [done|].
  assert (NewDevice (nodeOf (pre ++ d :: rest)) (Z.of_nat (length pre))
          = Ok d) as Hd.
  { simpl. rewrite decide_True by lia. rewrite Nat2Z.id.
    by rewrite list_lookup_middle. }
  rewrite seqZ_cons by (simpl; lia). cbn [rmapM]. rewrite Hd. cbn [rbind].
  replace (Z.succ (Z.of_nat (length pre)))
    with (Z.of_nat (length (pre ++ [d]))) by (rewrite length_app; simpl; lia).
  replace (Z.pred (Z.of_nat (length (d :: rest))))
    with (Z.of_nat (length rest)) by (simpl; lia).
  replace (pre ++ d :: rest) with ((pre ++ [d]) ++ rest)
    by (by rewrite <- app_assoc).
  by rewrite IH.
Qed.

Lemma listDevices_nodeOf (devices : list Device) :
  listDevices (nodeOf devices) = Ok devices.
Proof. unfold listDevices. simpl. apply (nodeOf_devices_from []). Qed.

Lemma classifyDevices_app (l1 l2 : list Device) :
  classifyDevices (l1 ++ l2)
  = rbind (classifyDevices l1) (fun p1 =>
    rbind (classifyDevices l2) (fun p2 =>
    Ok (p1.1 ++ p2.1, p1.2 ++ p2.2))).
Proof.
  induction l1 as [|d l1 IH]; simpl.
  - by destruct (classifyDevices l2) as [[en dis]|e].
  - destruct (IsMigEnabled d) as [b|e]; simpl; [|done]. rewrite IH.
    destruct (classifyDevices l1) as [[en1 dis1]|e]; simpl; [|done].
    destruct (classifyDevices l2) as [[en2 dis2]|e]; simpl; [|done].
    by destruct b.
Qed.

(** An enabled device without MIG devices adds nothing to the MIG devices
    of the inventory. *)
Lemma buildInventory_skip_empty (ds1 ds2 : list Device) (e : Device) :
  IsMigEnabled e = Ok true ->
  GetMigDevices e = Ok [] ->
  rmap allMigDevices (buildInventory (ds1 ++ e :: ds2))
  = rmap allMigDevices (buildInventory (ds1 ++ ds2)).
Proof.
  intros Hen Hmigs. unfold buildInventory.
  rewrite !classifyDevices_app. simpl. rewrite Hen. simpl.
  destruct (classifyDevices ds1) as [[en1 dis1]|err]; simpl; [|done].
  destruct (classifyDevices ds2) as [[en2 dis2]|err]; simpl; [|done].
  rewrite !rmapM_app. simpl. rewrite Hmigs. simpl.
  destruct (rmapM GetMigDevices en1) as [p1|err]; simpl; [|done].
  destruct (rmapM GetMigDevices en2) as [p2|err]; simpl; [|done].
  unfold rmap. simpl. by rewrite !concat_app.
Qed.

(** With an enabled device and none of them empty, the inventory has a MIG
    device. *)
Lemma buildInventory_nonempty (devices : list Device) (inv : DeviceInventory) :
  buildInventory devices = Ok inv ->
  enabledDevices inv <> [] ->
  anyEmpty inv = false ->
  allMigDevices inv <> [].
Proof.
  unfold buildInventory.
  destruct (classifyDevices devices) as [[en dis]|e]; simpl; [|done].
  destruct (rmapM GetMigDevices en) as [parts|e] eqn:Hparts; simpl; [|done].
  intros [= <-]. simpl. intros Hne Hempty.
  apply rmapM_length in Hparts.
  destruct parts as [|p parts]; [by destruct en|].
  simpl in Hempty. apply orb_false_elim in Hempty as [Hp _].
  apply bool_decide_eq_false in Hp.
  simpl. destruct p; [done|]. done.
Qed.

(** The four queries answer from one inventory, or fail alike. *)
Lemma specNewDeviceInfo_queries (nvmlLib : Nvml) :
  (exists devices inv,
     listDevices nvmlLib = Ok devices
     /\ buildInventory devices = Ok inv
     /\ GetDevicesWithMigEnabled (specNewDeviceInfo nvmlLib)
          = Ok (enabledDevices inv)
     /\ AnyMigEnabledDeviceIsEmpty (specNewDeviceInfo nvmlLib)
          = Ok (anyEmpty inv)
     /\ GetDevicesWithMigDisabled (specNewDeviceInfo nvmlLib)
          = Ok (disabledDevices inv)
     /\ GetAllMigDevices (specNewDeviceInfo nvmlLib)
          = Ok (allMigDevices inv))
  \/ (exists e,
        GetDevicesWithMigEnabled (specNewDeviceInfo nvmlLib) = Err e).
Proof.
  unfold specNewDeviceInfo. simpl.
  destruct (listDevices nvmlLib) as [devices|e]; simpl; [|eauto].
  destruct (buildInventory devices) as [inv|e] eqn:Hinv; simpl; [|eauto].
  left. exists devices, inv. by rewrite Hinv.
Qed.

Lemma specNewDeviceInfo_nodeOf_migs (devices : list Device) :
  GetAllMigDevices (specNewDeviceInfo (nodeOf devices))
  = rmap allMigDevices (buildInventory devices).
Proof. unfold specNewDeviceInfo. simpl. by rewrite listDevices_nodeOf. Qed.

(** Two distinct keys make a map of size above 1, and conversely. *)
Lemma map_size_gt_1 {V} (m : gmap string V) :
  (1 < size m)%nat <->
  exists k1 k2, k1 <> k2 /\ is_Some (m !! k1) /\ is_Some (m !! k2).
Proof.
  split.
  - intros Hsize. rewrite <- length_map_to_list in Hsize.
    pose proof (NoDup_fst_map_to_list m) as Hnd.
    pose proof (elem_of_map_to_list m) as Hin.
    destruct (map_to_list m) as [|[k1 v1] [|[k2 v2] l]];
      [simpl in Hsize; lia..|].
    exists k1, k2. split; [|split].
    + simpl in Hnd. apply NoDup_cons in Hnd as [Hnotin _].
      intros ->. apply Hnotin. left.
    + exists v1. apply Hin. left.
    + exists v2. apply Hin. right. left.
  - intros (k1 & k2 & Hne & [v1 H1] & [v2 H2]).
    rewrite <- (insert_id m k1 v1) by done.
    rewrite <- insert_delete_eq.
    rewrite map_size_insert_None by apply lookup_delete_eq.
    assert (delete k1 m !! k2 = Some v2) as Hk2
      by (by rewrite lookup_delete_ne).
    destruct (decide (size (delete k1 m) = 0%nat)) as [Hz|]; [|lia].
    apply map_size_empty_iff in Hz. rewrite Hz in Hk2.
    by rewrite lookup_empty in Hk2.
Qed.

(** ** The single and the mixed strategy on a node *)

(** C1. Under the single strategy with a device with MIG enabled, the
    checks run in the order: an enabled device is empty, devices with MIG
    disabled are present, more than one MIG device type. The first check
    that fails gives the reason of the warning, and the queries of the
    later checks are not made: neither the disabled devices nor the MIG
    devices are asked for after an empty device is found, and the MIG
    devices are not asked for when a disabled device is present. A node of
    one enabled GPU with a MIG device and one disabled GPU gives the labels
    of an invalid configuration with the reason of the second check. *)
Theorem single_checks_in_order `{lmPkg : LmPackage} :
  (forall (migPkg : MigPackage) (nvmlLib : Nvml) (config : Config)
          (d : Device) (ds : list Device),
     GetDevicesWithMigEnabled (NewDeviceInfo nvmlLib) = Ok (d :: ds) ->
     let single := newMigStrategySingleLabeler nvmlLib config in
     (AnyMigEnabledDeviceIsEmpty (NewDeviceInfo nvmlLib) = Ok true ->
        single
          = after [CallGetDevicesWithMigEnabled; CallAnyMigEnabledDeviceIsEmpty]
              (newInvalidMigStrategyLabeler nvmlLib reasonEmpty)
        /\ (CallGetDevicesWithMigDisabled ∉ trace single)
        /\ (CallGetAllMigDevices ∉ trace single)
        /\ (CallGetAttributes ∉ trace single))
     /\ (AnyMigEnabledDeviceIsEmpty (NewDeviceInfo nvmlLib) = Ok false ->
         forall (x : Device) (xs : list Device),
           GetDevicesWithMigDisabled (NewDeviceInfo nvmlLib) = Ok (x :: xs) ->
           single
             = after [CallGetDevicesWithMigEnabled;
                      CallAnyMigEnabledDeviceIsEmpty;
                      CallGetDevicesWithMigDisabled]
                 (newInvalidMigStrategyLabeler nvmlLib reasonMixedEnablement)
           /\ (CallGetAllMigDevices ∉ trace single)
           /\ (CallGetAttributes ∉ trace single))
     /\ (AnyMigEnabledDeviceIsEmpty (NewDeviceInfo nvmlLib) = Ok false ->
         GetDevicesWithMigDisabled (NewDeviceInfo nvmlLib) = Ok [] ->
         forall (migs : list Device) (t : list Event)
                (resources : gmap string migResource),
           GetAllMigDevices (NewDeviceInfo nvmlLib) = Ok migs ->
           countMigDevices (fun _ => "nvidia.com/gpu") migs ∅
             = (t, Ok resources) ->
           size resources ≠ 1%nat ->
           single
             = after ([CallGetDevicesWithMigEnabled;
                       CallAnyMigEnabledDeviceIsEmpty;
                       CallGetDevicesWithMigDisabled;
                       CallGetAllMigDevices] ++ t)
                 (newInvalidMigStrategyLabeler nvmlLib reasonMultipleTypes)))
  /\ (forall (model model' : string) (m : Device) (ms : list Device)
             (config : Config),
        let rl := {| resourceName := "nvidia.com/gpu" |} in
        newMigStrategySingleLabeler (migPkg := specMig)
          (nodeOf [migEnabledGPU model (m :: ms); migDisabledGPU model'])
          config
        = ([CallGetDevicesWithMigEnabled; CallAnyMigEnabledDeviceIsEmpty;
            CallGetDevicesWithMigDisabled;
            LogPrintf (invalidWarning reasonMixedEnablement);
            CallNewDevice 0; CallGetName],
           Ok (ofLabels
                 (updateLabel rl
                    (updateLabel rl (productLabel rl model ["MIG"; "INVALID"])
                       "count" 0)
                    "memory" 0)))).
Proof.
  split.
  - intros migPkg nvmlLib config d ds Hen single. subst single.
    split; [|split].
    + intros Hempty.
      rewrite (single_empty_first _ _ d ds) by done.
      split; [done|].
      repeat split; rewrite trace_after; intros Hin;
        apply elem_of_app in Hin as [Hin|Hin];
        try (revert Hin; not_in_trace);
        apply newInvalidMigStrategyLabeler_trace in Hin;
        intuition congruence.
    + intros Hempty x xs Hdis.
      rewrite (single_mixed_enablement_second _ _ d x ds xs) by done.
      split; [done|].
      repeat split; rewrite trace_after; intros Hin;
        apply elem_of_app in Hin as [Hin|Hin];
        try (revert Hin; not_in_trace);
        apply newInvalidMigStrategyLabeler_trace in Hin;
        intuition congruence.
    + intros Hempty Hdis migs t resources Hall Hcount Hsize.
      rewrite (single_after_counting _ _ d ds migs t resources) by done.
      by rewrite decide_True.
  - intros model model' m ms config rl.
    rewrite (single_mixed_enablement_second (migPkg := specMig) _ _
               (migEnabledGPU model (m :: ms)) (migDisabledGPU model') [] [])
      by reflexivity.
    reflexivity.
Qed.

Lemma single_checks_in_order_witness :
  newMigStrategySingleLabeler (lmPkg := standInLm) (migPkg := specMig)
    (nodeOf [migEnabledGPU "A100" []; migEnabledGPU "A100" [migDevice 1 4864]])
    (mkConfig (mkFlags "single"))
  = after [CallGetDevicesWithMigEnabled; CallAnyMigEnabledDeviceIsEmpty]
      (newInvalidMigStrategyLabeler (lmPkg := standInLm)
         (nodeOf [migEnabledGPU "A100" [];
                  migEnabledGPU "A100" [migDevice 1 4864]])
         reasonEmpty).
Proof.
  destruct (single_checks_in_order (lmPkg := standInLm)) as [H _].
  destruct (H specMig
              (nodeOf [migEnabledGPU "A100" [];
                       migEnabledGPU "A100" [migDevice 1 4864]])
              (mkConfig (mkFlags "single"))
              (migEnabledGPU "A100" [])
              [migEnabledGPU "A100" [migDevice 1 4864]]
              ltac:(vm_compute; reflexivity)) as [Hfirst _].
  exact (proj1 (Hfirst ltac:(vm_compute; reflexivity))).
Defined.

(** C7. After the counting loop, under any naming of the resources and so
    under that of the single and that of the mixed strategy, the count of
    each resource is the number of MIG devices whose canonical name is its
    key, and the loop returns when the attributes of all MIG devices are
    read. Under the single strategy, two enabled GPUs with 3 and 4 MIG
    devices, all named "3g.20gb", give one resource, "nvidia.com/gpu", with
    count 7. *)
Theorem count_is_number_of_mig_devices `{lmPkg : LmPackage} :
  (forall (resourceNameOf : string -> ResourceName) (migs : list Device)
          (t : list Event) (resources : gmap string migResource),
     countMigDevices resourceNameOf migs ∅ = (t, Ok resources) ->
     forall (k : string) (r : migResource),
       resources !! k = Some r ->
       count r = Z.of_nat (occurrences k migs)
       /\ name r = resourceNameOf k)
  /\ (forall (resourceNameOf : string -> ResourceName) (migs : list Device),
        Forall (fun mig => exists attr, GetAttributes mig = Ok attr) migs ->
        exists resources,
          countMigDevices resourceNameOf migs ∅
            = (replicate (length migs) CallGetAttributes, Ok resources))
  /\ (forall (model1 model2 : string) (config : Config),
        let m := migDevice 3 20096 in
        let node := nodeOf [migEnabledGPU model1 [m; m; m];
                            migEnabledGPU model2 [m; m; m; m]] in
        countMigDevices (fun _ => "nvidia.com/gpu") [m; m; m; m; m; m; m] ∅
          = (replicate 7 CallGetAttributes,
             Ok {[ "3g.20gb" := {| name := "nvidia.com/gpu";
                                   device := Some m; count := 7 |} ]})
        /\ newMigStrategySingleLabeler (migPkg := specMig) node config
           = after ([CallGetDevicesWithMigEnabled;
                     CallAnyMigEnabledDeviceIsEmpty;
                     CallGetDevicesWithMigDisabled;
                     CallGetAllMigDevices] ++ replicate 7 CallGetAttributes)
               (l <- call CallNewMIGResourceLabeler
                       (NewMIGResourceLabeler "nvidia.com/gpu" config
                          (Some m) 7)
                       orElse "failed to construct labeler: " ;;
                ret (ofList [l]))).
Proof.
  split; [|split].
  - intros resourceNameOf migs t resources Hcount k r Hr.
    destruct (countMigDevices_from_empty _ _ _ _ _ _ Hcount Hr)
      as (Hname & Hc & _). done.
  - intros resourceNameOf migs Hall. by apply countMigDevices_total.
  - intros model1 model2 config m node.
    assert (countMigDevices (fun _ => "nvidia.com/gpu")
              [m; m; m; m; m; m; m] ∅
            = (replicate 7 CallGetAttributes,
               Ok {[ "3g.20gb" := {| name := "nvidia.com/gpu";
                                     device := Some m; count := 7 |} ]}))
      as Hcount by (vm_compute; reflexivity).
    split; [done|].
    rewrite (single_after_counting (migPkg := specMig) node config
               (migEnabledGPU model1 [m; m; m])
               [migEnabledGPU model2 [m; m; m; m]]
               [m; m; m; m; m; m; m] _ _
               eq_refl eq_refl eq_refl eq_refl Hcount).
    rewrite decide_False by (rewrite map_size_singleton; auto).
    unfold newMIGDeviceLabelers. rewrite map_to_list_singleton. simpl.
    f_equal.
    by destruct (NewMIGResourceLabeler "nvidia.com/gpu" config (Some m) 7).
Qed.

Lemma count_is_number_of_mig_devices_witness :
  let migs := [migDevice 1 4864; migDevice 2 9856; migDevice 1 4864] in
  exists resources r,
    countMigDevices (fun k => "nvidia.com/mig-" +:+ k) migs ∅
      = (replicate 3 CallGetAttributes, Ok resources)
    /\ resources !! "1g.5gb" = Some r
    /\ count r = 2
    /\ name r = "nvidia.com/mig-1g.5gb".
Proof.
  intros migs.
  destruct (count_is_number_of_mig_devices (lmPkg := standInLm))
    as [Hcount _].
  eexists. eexists.
  split; [vm_compute; reflexivity|].
  split; [vm_compute; reflexivity|].
  exact (Hcount (fun k => "nvidia.com/mig-" +:+ k) migs _ _
           ltac:(vm_compute; reflexivity) "1g.5gb" _
           ltac:(vm_compute; reflexivity)).
Defined.

(** C6. Under the mixed strategy, when the attributes of the MIG devices
    are read, the resources handed to the labelers hold, for every name f
    of a MIG device, one resource named "nvidia.com/mig-" + f, whose count
    is the number of MIG devices named f; no warning is written and no
    label set of an invalid configuration is returned. The result depends
    on the node through its list of MIG devices only, the check for empty
    devices is not made, and in the inventory an enabled GPU without MIG
    devices changes nothing. With "1g.5gb" twice, "2g.10gb" once and an
    enabled GPU without MIG devices, there are two resources, with counts
    2 and 1. *)
Theorem mixed_counts_each_profile `{lmPkg : LmPackage} :
  (forall (migPkg : MigPackage) (nvmlLib : Nvml) (config : Config)
          (migs : list Device),
     GetAllMigDevices (NewDeviceInfo nvmlLib) = Ok migs ->
     Forall (fun mig => exists attr, GetAttributes mig = Ok attr) migs ->
     exists resources : gmap string migResource,
       newMigStrategyMixedLabeler nvmlLib config
         = after (CallGetAllMigDevices
                  :: replicate (length migs) CallGetAttributes)
             (newMIGDeviceLabelers resources config)
       /\ forall f : string,
            (0 < occurrences f migs)%nat ->
            exists r : migResource,
              resources !! f = Some r
              /\ name r = "nvidia.com/mig-" +:+ f
              /\ count r = Z.of_nat (occurrences f migs)
              /\ forall (f' : string) (r' : migResource),
                   resources !! f' = Some r' -> name r' = name r -> f' = f)
  /\ (forall (migPkg : MigPackage) (nvmlLib : Nvml) (config : Config),
        logged (trace (newMigStrategyMixedLabeler nvmlLib config)) = []
        /\ forall labels,
             outcome (newMigStrategyMixedLabeler nvmlLib config)
               <> Ok (ofLabels labels))
  /\ (forall (migPkg : MigPackage) (lib1 lib2 : Nvml) (config : Config),
        GetAllMigDevices (NewDeviceInfo lib1)
          = GetAllMigDevices (NewDeviceInfo lib2) ->
        newMigStrategyMixedLabeler lib1 config
          = newMigStrategyMixedLabeler lib2 config
        /\ (CallAnyMigEnabledDeviceIsEmpty
             ∉ trace (newMigStrategyMixedLabeler lib1 config)))
  /\ (forall (ds1 ds2 : list Device) (e : Device) (config : Config),
        IsMigEnabled e = Ok true ->
        GetMigDevices e = Ok [] ->
        newMigStrategyMixedLabeler (migPkg := specMig)
          (nodeOf (ds1 ++ e :: ds2)) config
        = newMigStrategyMixedLabeler (migPkg := specMig)
            (nodeOf (ds1 ++ ds2)) config)
  /\ (forall (model1 model2 model3 : string) (config : Config),
        let a := migDevice 1 4864 in
        let b := migDevice 2 9856 in
        let node := nodeOf [migEnabledGPU model1 [a; b];
                            migEnabledGPU model2 [];
                            migEnabledGPU model3 [a]] in
        let resources : gmap string migResource :=
          {[ "1g.5gb" := {| name := "nvidia.com/mig-1g.5gb";
                            device := Some a; count := 2 |};
             "2g.10gb" := {| name := "nvidia.com/mig-2g.10gb";
                             device := Some b; count := 1 |} ]} in
        newMigStrategyMixedLabeler (migPkg := specMig) node config
          = after (CallGetAllMigDevices :: replicate 3 CallGetAttributes)
              (newMIGDeviceLabelers resources config)
        /\ size resources = 2%nat).
Proof.
  split; [|split; [|split; [|split]]].
  - intros migPkg nvmlLib config migs Hall Hattrs.
    destruct (countMigDevices_total (fun k => "nvidia.com/mig-" +:+ k)
                migs ∅ Hattrs) as [resources Hcount].
    exists resources. split; [by apply (mixed_after_counting _ _ migs)|].
    intros f Hf.
    destruct (countMigDevices_occurs _ _ _ _ f Hcount Hf) as [r Hr].
    destruct (countMigDevices_from_empty _ _ _ _ _ _ Hcount Hr)
      as (Hname & Hc & _).
    exists r. repeat split; [done..|].
    intros f' r' Hr' Heq.
    destruct (countMigDevices_from_empty _ _ _ _ _ _ Hcount Hr')
      as (Hname' & _).
    rewrite Hname, Hname' in Heq.
    by apply (inj (String.app "nvidia.com/mig-")) in Heq.
  - intros migPkg nvmlLib config. apply mixed_never_invalid.
  - intros migPkg lib1 lib2 config Hsame. split.
    + unfold newMigStrategyMixedLabeler. by rewrite Hsame.
    + intros Hin. apply mixed_trace in Hin. intuition congruence.
  - intros ds1 ds2 e config Hen Hmigs.
    unfold newMigStrategyMixedLabeler.
    change (NewDeviceInfo (MigPackage := specMig)) with specNewDeviceInfo.
    rewrite !specNewDeviceInfo_nodeOf_migs.
    by rewrite buildInventory_skip_empty.
  - intros model1 model2 model3 config a b node resources. split.
    + apply (mixed_after_counting (migPkg := specMig) node config [a; b; a]);
        [reflexivity|].
      vm_compute. reflexivity.
    + vm_compute. reflexivity.
Qed.

Lemma mixed_counts_each_profile_witness :
  let a := migDevice 1 4864 in
  let b := migDevice 2 9856 in
  let node := nodeOf [migEnabledGPU "A100" [a; b]; migEnabledGPU "A100" [a]] in
  exists resources r,
    newMigStrategyMixedLabeler (lmPkg := standInLm) (migPkg := specMig)
      node (mkConfig (mkFlags "mixed"))
      = after (CallGetAllMigDevices :: replicate 3 CallGetAttributes)
          (newMIGDeviceLabelers (lmPkg := standInLm) resources
             (mkConfig (mkFlags "mixed")))
    /\ resources !! "1g.5gb" = Some r
    /\ name r = "nvidia.com/mig-1g.5gb"
    /\ count r = 2.
Proof.
  intros a b node.
  destruct (mixed_counts_each_profile (lmPkg := standInLm)) as [H _].
  destruct (H specMig node (mkConfig (mkFlags "mixed")) [a; b; a]
              ltac:(vm_compute; reflexivity)
              ltac:(repeat constructor; eexists; reflexivity))
    as (resources & Hmixed & Hres).
  destruct (Hres "1g.5gb" ltac:(vm_compute; lia)) as (r & Hr & Hname & Hc & _).
  exists resources, r. repeat split; assumption.
Defined.

(** C8. Under the single strategy, with the inventory of the node, when a
    device has MIG enabled, no enabled device is empty and no device has
    MIG disabled, there is a MIG device, and so the counted resources are
    not empty: their size differs from 1 exactly when it is above 1, which
    is when two MIG devices have distinct names, and the labels of an
    invalid configuration are returned in that case and in no other. *)
Theorem single_multiple_types_iff `{lmPkg : LmPackage}
    (nvmlLib : Nvml) (config : Config) (d : Device) (ds : list Device) :
  GetDevicesWithMigEnabled (specNewDeviceInfo nvmlLib) = Ok (d :: ds) ->
  AnyMigEnabledDeviceIsEmpty (specNewDeviceInfo nvmlLib) = Ok false ->
  GetDevicesWithMigDisabled (specNewDeviceInfo nvmlLib) = Ok [] ->
  exists migs : list Device,
    GetAllMigDevices (specNewDeviceInfo nvmlLib) = Ok migs
    /\ migs <> []
    /\ forall (t : list Event) (resources : gmap string migResource),
         countMigDevices (fun _ => "nvidia.com/gpu") migs ∅
           = (t, Ok resources) ->
         let calls := [CallGetDevicesWithMigEnabled;
                       CallAnyMigEnabledDeviceIsEmpty;
                       CallGetDevicesWithMigDisabled;
                       CallGetAllMigDevices] ++ t in
         (0 < size resources)%nat
         /\ (size resources ≠ 1%nat <-> (1 < size resources)%nat)
         /\ ((1 < size resources)%nat <->
             exists k1 k2, k1 <> k2 /\ (0 < occurrences k1 migs)%nat
                           /\ (0 < occurrences k2 migs)%nat)
         /\ ((1 < size resources)%nat ->
             newMigStrategySingleLabeler (migPkg := specMig) nvmlLib config
             = after calls
                 (newInvalidMigStrategyLabeler nvmlLib reasonMultipleTypes))
         /\ (~ (1 < size resources)%nat ->
             newMigStrategySingleLabeler (migPkg := specMig) nvmlLib config
             = after calls (newMIGDeviceLabelers resources config)).
Proof.
  intros Hen Hempty Hdis.
  destruct (specNewDeviceInfo_queries nvmlLib)
    as [(devices & inv & _ & Hinv & Hen' & Hempty' & _ & Hall)|[e He]];
    [|congruence].
  exists (allMigDevices inv). split; [done|].
  assert (allMigDevices inv <> []) as Hne.
  { apply (buildInventory_nonempty devices); [done| |congruence].
    rewrite Hen' in Hen. injection Hen as ->. done. }
  split; [done|].
  intros t resources Hcount calls.
  pose proof (countMigDevices_nonempty _ _ _ _ Hne Hcount) as Hpos.
  pose proof (single_after_counting (migPkg := specMig) nvmlLib config
                d ds _ t resources Hen Hempty Hdis Hall Hcount) as Hsingle.
  split; [done|]. split; [lia|]. split; [|split].
  - rewrite map_size_gt_1. split.
    + intros (k1 & k2 & Hk & [r1 H1] & [r2 H2]). exists k1, k2.
      split; [done|].
      destruct (countMigDevices_from_empty _ _ _ _ _ _ Hcount H1)
        as (_ & _ & Ho1 & _).
      destruct (countMigDevices_from_empty _ _ _ _ _ _ Hcount H2)
        as (_ & _ & Ho2 & _).
      done.
    + intros (k1 & k2 & Hk & Ho1 & Ho2). exists k1, k2.
      split; [done|].
      split; by eapply countMigDevices_occurs.
  - intros Hgt. rewrite Hsingle. by rewrite decide_True by lia.
  - intros Hle. rewrite Hsingle. by rewrite decide_False by lia.
Qed.

Lemma single_multiple_types_iff_witness :
  let a := migDevice 1 4864 in
  let b := migDevice 2 9856 in
  let node := nodeOf [migEnabledGPU "A100" [a; b]; migEnabledGPU "A100" [a]] in
  exists migs : list Device,
    GetAllMigDevices (specNewDeviceInfo node) = Ok migs /\ migs <> [].
Proof.
  intros a b node.
  destruct (single_multiple_types_iff (lmPkg := standInLm) node
              (mkConfig (mkFlags "single"))
              (migEnabledGPU "A100" [a; b]) [migEnabledGPU "A100" [a]]
              ltac:(vm_compute; reflexivity)
              ltac:(vm_compute; reflexivity)
              ltac:(vm_compute; reflexivity))
    as (migs & Hall & Hne & _).
  exists migs. split; assumption.
Defined.

(** ** Runs on concrete nodes *)

Lemma NewResourceLabeler_no_devices_witness :
  NewResourceLabeler (lmPkg := standInLm) (migPkg := specMig)
    (nodeOf []) (mkConfig (mkFlags "bogus"))
  = ([CallGetDeviceCount], Ok empty).
Proof.
  apply (NewResourceLabeler_no_devices (lmPkg := standInLm)
           (migPkg := specMig)).
  reflexivity.
Defined.

Lemma unknown_strategy_fails_witness :
  newMigLabeler (lmPkg := standInLm) (migPkg := specMig)
    (nodeOf [migDisabledGPU "A100"]) (mkConfig (mkFlags "bogus"))
  = ([], Err "unknown strategy: bogus").
Proof.
  apply (unknown_strategy_fails (lmPkg := standInLm) (migPkg := specMig)
           (nodeOf [migDisabledGPU "A100"]) (mkConfig (mkFlags "bogus")));
    vm_compute; discriminate.
Defined.

(** C3, as stated, fails: on a node with a GPU the error of an unknown
    strategy comes after the device count was read twice and device 0 was
    asked for, and on a node without a GPU there is no error. *)
Lemma unknown_strategy_after_device_calls :
  NewResourceLabeler (lmPkg := standInLm) (migPkg := specMig)
    (nodeOf [migDisabledGPU "A100"]) (mkConfig (mkFlags "bogus"))
  = ([CallGetDeviceCount; CallGetDeviceCount; CallNewDevice 0;
      CallNewGPUResourceLabeler; CallLabels],
     Err "failed to construct MIG resource labeler: unknown strategy: bogus")
  /\ NewResourceLabeler (lmPkg := standInLm) (migPkg := specMig)
       (nodeOf []) (mkConfig (mkFlags "bogus"))
     = ([CallGetDeviceCount], Ok empty).
Proof. split; vm_compute; reflexivity. Qed.

Lemma newGPULabelers_first_device_only_witness :
  let lib1 := nodeOf [migDisabledGPU "A100"; migDisabledGPU "A100"] in
  let lib2 := {| GetDeviceCount := Ok 2;
                 NewDevice := fun i => if decide (i = 0)
                                       then Ok (migDisabledGPU "A100")
                                       else Err "GPU is lost" |} in
  newGPULabelers (lmPkg := standInLm) lib1 (mkConfig (mkFlags "none"))
  = newGPULabelers (lmPkg := standInLm) lib2 (mkConfig (mkFlags "none")).
Proof.
  intros lib1 lib2.
  exact (proj1 (newGPULabelers_first_device_only (lmPkg := standInLm)
                  lib1 lib2 (mkConfig (mkFlags "none")) 2
                  ltac:(reflexivity) ltac:(reflexivity) ltac:(lia)
                  ltac:(reflexivity))).
Defined.

Lemma single_without_mig_enabled_witness :
  newMigStrategySingleLabeler (lmPkg := standInLm) (migPkg := specMig)
    (nodeOf [migDisabledGPU "A100"; migDisabledGPU "A100"])
    (mkConfig (mkFlags "single"))
  = ([CallGetDevicesWithMigEnabled], Ok empty).
Proof.
  exact (proj1 (single_without_mig_enabled (lmPkg := standInLm)
                  (migPkg := specMig)
                  (nodeOf [migDisabledGPU "A100"; migDisabledGPU "A100"])
                  (mkConfig (mkFlags "single"))
                  ltac:(vm_compute; reflexivity))).
Defined.

Lemma newInvalidMigStrategyLabeler_labels_witness :
  exists labels : gmap string string,
    newInvalidMigStrategyLabeler (lmPkg := standInLm)
      (nodeOf [migEnabledGPU "A100" []]) reasonEmpty
    = ([LogPrintf (invalidWarning reasonEmpty); CallNewDevice 0; CallGetName],
       Ok (ofLabels labels))
    /\ labels !! "nvidia.com/gpu.count" = Some "0"
    /\ labels !! "nvidia.com/gpu.memory" = Some "0"
    /\ labels !! "nvidia.com/gpu.product" = Some "A100-MIG-INVALID".
Proof.
  destruct (newInvalidMigStrategyLabeler_labels (lmPkg := standInLm)
              (migPkg := specMig)
              (nodeOf [migEnabledGPU "A100" []]) reasonEmpty)
    as (_ & Hlabels & _).
  destruct (Hlabels (migEnabledGPU "A100" []) "A100"
              ltac:(reflexivity) ltac:(reflexivity))
    as (labels & Hrun & Hcount & Hmemory & Hother).
  exists labels. repeat split; try assumption.
  rewrite (Hother "nvidia.com/gpu.product")
    by (vm_compute; discriminate).
  vm_compute. reflexivity.
Defined.

(** * Further properties of the labelers *)

Lemma trace_bind {A B} (m : M A) (k : A -> M B) :
  trace (bind m k)
  = trace m ++ match outcome m with
               | Ok a => trace (k a)
               | Err _ => []
               end.
Proof.
  destruct m as [t [a|e]]; unfold trace, outcome; simpl.
  - by destruct (k a).
  - by rewrite app_nil_r.
Qed.

Lemma outcome_bind {A B} (m : M A) (k : A -> M B) :
  outcome (bind m k)
  = match outcome m with
    | Ok a => outcome (k a)
    | Err e => Err e
    end.
Proof.
  destruct m as [t [a|e]]; unfold outcome; simpl; [|done].
  by destruct (k a).
Qed.

Lemma trace_wrapErr {A} (prefix : string) (m : M A) :
  trace (wrapErr prefix m) = trace m.
Proof. by destruct m as [t [a|e]]. Qed.

Lemma outcome_wrapErr {A} (prefix : string) (m : M A) :
  outcome (wrapErr prefix m)
  = match outcome m with
    | Ok a => Ok a
    | Err e => Err (Errorf prefix e)
    end.
Proof. by destruct m as [t [a|e]]. Qed.

Lemma M_eq {A} (m : M A) : m = (trace m, outcome m).
Proof. by destruct m. Qed.

(** ** Names of MIG devices *)

Lemma pretty_N_char_digit (x : N) : isDigit (pretty_N_char x) = true.
Proof. unfold pretty_N_char. by repeat case_match. Qed.

Lemma pretty_N_go_digits (x : N) (s : string) :
  allDigits s = true -> allDigits (pretty_N_go x s) = true.
Proof.
  revert s. induction (N.lt_wf_0 x) as [x _ IH]. intros s Hs.
  destruct (decide (x = 0)%N) as [->|Hx]; [by rewrite pretty_N_go_0|].
  rewrite pretty_N_go_step by lia.
  apply IH.
  - apply N.div_lt; lia.
  - simpl. by rewrite pretty_N_char_digit.
Qed.

Lemma fmt_d_digits (z : Z) : 0 <= z -> allDigits (fmt_d z) = true.
Proof.
  intros Hz. unfold fmt_d, pretty, pretty_Z.
  destruct z as [|p|p]; [done| |lia].
  unfold pretty, pretty_positive, pretty, pretty_N.
  case_decide; [done|]. by apply pretty_N_go_digits.
Qed.

(** Digits followed by the letter g: the digits and the rest are read
    back. *)
Lemma digits_then_g (s1 s2 x y : string) :
  allDigits s1 = true -> allDigits s2 = true ->
  s1 +:+ "g" +:+ x = s2 +:+ "g" +:+ y ->
  s1 = s2 /\ x = y.
Proof.
  revert s2. induction s1 as [|c1 s1 IH]; intros [|c2 s2] H1 H2; simpl.
  - intros [= Hxy]. by subst.
  - intros [= Hc _]. subst c2. simpl in H2. done.
  - intros [= Hc _]. subst c1. simpl in H1. done.
  - intros [= Hc Hrest]. subst c2. simpl in H1, H2.
    apply andb_true_iff in H1 as [_ H1]. apply andb_true_iff in H2 as [_ H2].
    destruct (IH s2 H1 H2 Hrest) as [Hs Hxy]. by subst.
Qed.

Lemma name_of_profile_inj (g1 g2 gb1 gb2 : Z) :
  0 <= g1 -> 0 <= g2 -> 0 <= gb1 -> 0 <= gb2 ->
  fmt_d g1 +:+ "g." +:+ fmt_d gb1 +:+ "gb"
  = fmt_d g2 +:+ "g." +:+ fmt_d gb2 +:+ "gb" ->
  g1 = g2 /\ gb1 = gb2.
Proof.
  intros Hg1 Hg2 Hb1 Hb2 Heq.
  apply digits_then_g in Heq as [Hg Hrest]; [|by apply fmt_d_digits..].
  simpl in Hrest. injection Hrest as Hrest.
  apply (digits_then_g _ _ "b" "b") in Hrest as [Hb _];
    [|by apply fmt_d_digits..].
  unfold fmt_d in *. split; by apply (inj pretty).
Qed.

(** X1. Below the wrap, two MIG devices have the same canonical name
    exactly when they have the same slice count and the same memory size
    in GB, rounded up: the name tells the profiles apart, and devices whose
    memory differs within one GB share a name. *)
Theorem getMigDeviceName_same_name_iff (mig1 mig2 : Device)
    (attr1 attr2 : DeviceAttributes) :
  GetAttributes mig1 = Ok attr1 ->
  GetAttributes mig2 = Ok attr2 ->
  0 <= GpuInstanceSliceCount attr1 ->
  0 <= GpuInstanceSliceCount attr2 ->
  0 <= MemorySizeMB attr1 <= 2 ^ 64 - 1024 ->
  0 <= MemorySizeMB attr2 <= 2 ^ 64 - 1024 ->
  outcome (getMigDeviceName mig1) = outcome (getMigDeviceName mig2)
  <-> GpuInstanceSliceCount attr1 = GpuInstanceSliceCount attr2
      /\ (MemorySizeMB attr1 + 1023) / 1024
         = (MemorySizeMB attr2 + 1023) / 1024.
Proof.
  intros H1 H2 Hg1 Hg2 Hm1 Hm2.
  unfold getMigDeviceName. rewrite H1, H2. simpl.
  rewrite !uint64_ceil_no_wrap by done.
  split.
  - intros [= Heq]. apply name_of_profile_inj in Heq; [done|try done..].
    + apply Z.div_pos; lia.
    + apply Z.div_pos; lia.
  - by intros [-> ->].
Qed.

Lemma getMigDeviceName_same_name_iff_witness :
  outcome (getMigDeviceName (migDevice 1 4864))
  = outcome (getMigDeviceName (migDevice 1 5120)).
Proof.
  apply (getMigDeviceName_same_name_iff (migDevice 1 4864) (migDevice 1 5120)
           {| GpuInstanceSliceCount := 1; MemorySizeMB := 4864 |}
           {| GpuInstanceSliceCount := 1; MemorySizeMB := 5120 |});
    try reflexivity; simpl; try lia.
  split; reflexivity.
Defined.

(** X2. In the top 1023 values of the memory size the addition wraps and
    the GB component of the name is 0, whatever the size is. *)
Theorem getMigDeviceName_wrap_range (mig : Device) (attr : DeviceAttributes) :
  GetAttributes mig = Ok attr ->
  2 ^ 64 - 1024 < MemorySizeMB attr < 2 ^ 64 ->
  getMigDeviceName mig
  = ([CallGetAttributes],
     Ok (fmt_d (GpuInstanceSliceCount attr) +:+ "g.0gb")).
Proof.
  intros Hattr Hm. unfold getMigDeviceName. rewrite Hattr. simpl.
  assert (wrap_uint64 (wrap_uint64 (MemorySizeMB attr + 1024) - 1) / 1024 = 0)
    as ->; [|done].
  unfold wrap_uint64, uint64_modulus.
  rewrite Zminus_mod_idemp_l.
  replace (MemorySizeMB attr + 1024 - 1)
    with (MemorySizeMB attr + 1023 - 2 ^ 64 + 1 * 2 ^ 64) by lia.
  rewrite Z.mod_add by lia.
  rewrite Z.mod_small by lia.
  apply Z.div_small. lia.
Qed.

Lemma getMigDeviceName_wrap_range_witness :
  getMigDeviceName (migDevice 7 (2 ^ 64 - 1000))
  = ([CallGetAttributes], Ok "7g.0gb").
Proof.
  apply (getMigDeviceName_wrap_range (migDevice 7 (2 ^ 64 - 1000))
           {| GpuInstanceSliceCount := 7; MemorySizeMB := 2 ^ 64 - 1000 |});
    [reflexivity|simpl; lia].
Defined.

(** ** The counting loop *)

Lemma totalCount_insert_None (resources : gmap string migResource)
    (k : string) (r : migResource) :
  resources !! k = None ->
  totalCount (<[k := r]> resources) = count r + totalCount resources.
Proof.
  intros Hk. unfold totalCount.
  rewrite map_fold_insert_L; [done| |done].
  intros. lia.
Qed.

Lemma totalCount_insert_Some (resources : gmap string migResource)
    (k : string) (r0 r : migResource) :
  resources !! k = Some r0 ->
  totalCount (<[k := r]> resources)
  = count r - count r0 + totalCount resources.
Proof.
  intros Hk.
  rewrite <- (insert_delete_eq resources k r).
  rewrite totalCount_insert_None by apply lookup_delete_eq.
  rewrite <- (insert_delete_id resources k r0) at 2 by done.
  rewrite totalCount_insert_None by apply lookup_delete_eq.
  lia.
Qed.

Lemma totalCount_countedOnce (resourceNameOf : string -> ResourceName)
    (k : string) (mig : Device) (resources : gmap string migResource) :
  totalCount (<[k := countedOnce resourceNameOf k mig resources]> resources)
  = totalCount resources + 1.
Proof.
  unfold countedOnce. destruct (resources !! k) as [r0|] eqn:Hk.
  - rewrite (totalCount_insert_Some _ _ r0) by done. simpl. lia.
  - rewrite totalCount_insert_None by done. simpl. lia.
Qed.

Lemma countMigDevices_totalCount (resourceNameOf : string -> ResourceName)
    (migs : list Device) (resources0 resources : gmap string migResource)
    (t : list Event) :
  countMigDevices resourceNameOf migs resources0 = (t, Ok resources) ->
  totalCount resources = totalCount resources0 + Z.of_nat (length migs)
  /\ t = replicate (length migs) CallGetAttributes.
Proof.
  revert resources0 t.
  induction migs as [|m migs IH]; intros resources0 t Hcount.
  - injection Hcount as <- <-. simpl. split; [lia|done].
  - destruct (outcome (getMigDeviceName m)) as [k|e] eqn:Hk;
      [|by rewrite (countMigDevices_cons_Err _ _ _ _ e) in Hcount].
    rewrite (countMigDevices_cons_Ok _ _ _ _ k) in Hcount by done.
    destruct (countMigDevices _ migs _) as [t' r'] eqn:Hrest.
    unfold after, trace, outcome in Hcount. simpl in Hcount.
    injection Hcount as <- ->.
    destruct (IH _ _ Hrest) as [Htotal ->].
    rewrite Htotal, totalCount_countedOnce. split; [|done].
    rewrite length_cons. lia.
Qed.

(** X3. When the counting loop returns, it has read the attributes of
    every MIG device once, and the counts of the resources add up to the
    number of MIG devices: no device is dropped or counted twice. *)
Theorem countMigDevices_counts_every_device
    (resourceNameOf : string -> ResourceName) (migs : list Device)
    (t : list Event) (resources : gmap string migResource) :
  countMigDevices resourceNameOf migs ∅ = (t, Ok resources) ->
  totalCount resources = Z.of_nat (length migs)
  /\ t = replicate (length migs) CallGetAttributes.
Proof.
  intros Hcount.
  destruct (countMigDevices_totalCount _ _ _ _ _ Hcount) as [Htotal Ht].
  split; [|done]. rewrite Htotal. unfold totalCount.
  rewrite map_fold_empty. lia.
Qed.

Lemma countMigDevices_counts_every_device_witness :
  exists resources,
    countMigDevices (fun k => "nvidia.com/mig-" +:+ k)
      [migDevice 1 4864; migDevice 2 9856; migDevice 1 4864] ∅
    = (replicate 3 CallGetAttributes, Ok resources)
    /\ totalCount resources = 3.
Proof.
  eexists. split; [vm_compute; reflexivity|].
  exact (proj1 (countMigDevices_counts_every_device
                  (fun k => "nvidia.com/mig-" +:+ k)
                  [migDevice 1 4864; migDevice 2 9856; migDevice 1 4864]
                  _ _ ltac:(vm_compute; reflexivity))).
Defined.

(** X4. When the counting loop returns, the keys of the resources are the
    names that occur among the MIG devices, and the device kept for a name
    is the first MIG device of that name in the order of the list. *)
Theorem countMigDevices_keys_and_representative
    (resourceNameOf : string -> ResourceName) (migs : list Device)
    (t : list Event) (resources : gmap string migResource) :
  countMigDevices resourceNameOf migs ∅ = (t, Ok resources) ->
  forall k : string,
    (is_Some (resources !! k) <->
     exists mig, mig ∈ migs /\ outcome (getMigDeviceName mig) = Ok k)
    /\ (forall r, resources !! k = Some r ->
          device r = head (migsOfProfile k migs)
          /\ is_Some (device r)).
Proof.
  intros Hcount k.
  pose proof (countMigDevices_lookup _ _ _ _ _ k Hcount) as Hk.
  rewrite lookup_empty in Hk. split.
  - split.
    + intros [r Hr]. rewrite Hr in Hk.
      destruct (migsOfProfile k migs) as [|mig rest] eqn:Hf; [done|].
      exists mig.
      assert (mig ∈ migsOfProfile k migs) as Hin by (rewrite Hf; left).
      by apply list_elem_of_filter in Hin as [? ?].
    + intros (mig & Hin & Hname).
      assert (mig ∈ migsOfProfile k migs) as Hin'
        by (by apply list_elem_of_filter).
      destruct (migsOfProfile k migs) as [|mig' rest];
        [by apply elem_of_nil in Hin'|].
      rewrite Hk. eauto.
  - intros r Hr. rewrite Hr in Hk.
    destruct (migsOfProfile k migs) as [|mig rest]; [done|].
    injection Hk as ->. simpl. eauto.
Qed.

Lemma countMigDevices_keys_and_representative_witness :
  exists resources r,
    countMigDevices (fun _ => "nvidia.com/gpu")
      [migDevice 1 4864; migDevice 1 5120] ∅
    = (replicate 2 CallGetAttributes, Ok resources)
    /\ resources !! "1g.5gb" = Some r
    /\ device r = Some (migDevice 1 4864).
Proof.
  eexists. eexists. split; [vm_compute; reflexivity|].
  split; [vm_compute; reflexivity|].
  destruct (countMigDevices_keys_and_representative
              (fun _ => "nvidia.com/gpu")
              [migDevice 1 4864; migDevice 1 5120] _ _
              ltac:(vm_compute; reflexivity) "1g.5gb") as [_ Hrep].
  exact (proj1 (Hrep _ ltac:(vm_compute; reflexivity))).
Defined.

(** X5. The counting loop stops at the first MIG device whose attributes
    cannot be read: it fails with the error of that read, returns no
    resources, and does not read the devices after it. *)
Theorem countMigDevices_first_failure
    (resourceNameOf : string -> ResourceName) (pre post : list Device)
    (bad : Device) (e : error) (resources0 : gmap string migResource) :
  Forall (fun mig => exists attr, GetAttributes mig = Ok attr) pre ->
  GetAttributes bad = Err e ->
  countMigDevices resourceNameOf (pre ++ bad :: post) resources0
  = (replicate (S (length pre)) CallGetAttributes,
     Err (Errorf "unable to parse MIG device name: " e)).
Proof.
  intros Hpre Hbad. revert resources0.
  induction Hpre as [|m pre [attr Hattr] _ IH]; intros resources0.
  - simpl app. rewrite (countMigDevices_cons_Err _ _ _ _ e); [done|].
    unfold getMigDeviceName. by rewrite Hbad.
  - assert (exists k, outcome (getMigDeviceName m) = Ok k) as [k Hk].
    { unfold getMigDeviceName. rewrite Hattr. simpl. eauto. }
    simpl app. rewrite (countMigDevices_cons_Ok _ _ _ _ k) by done.
    by rewrite IH.
Qed.

Lemma countMigDevices_first_failure_witness :
  countMigDevices (fun _ => "nvidia.com/gpu")
    [migDevice 1 4864; migDisabledGPU "A100"; migDevice 2 9856] ∅
  = (replicate 2 CallGetAttributes,
     Err "unable to parse MIG device name: not a MIG device").
Proof.
  apply (countMigDevices_first_failure (fun _ => "nvidia.com/gpu")
           [migDevice 1 4864] [migDevice 2 9856] (migDisabledGPU "A100")
           "not a MIG device" ∅).
  - repeat constructor. eexists. reflexivity.
  - reflexivity.
Defined.

(** ** The labelers of the resources *)

Section MoreLabelers.
Context `{lmPkg : LmPackage} `{migPkg : MigPackage}.




Lemma migsOfProfile_all (k : string) (migs : list Device) :
  Forall (fun mig => outcome (getMigDeviceName mig) = Ok k) migs ->
  migsOfProfile k migs = migs
  /\ forall k', k' <> k -> migsOfProfile k' migs = [].
Proof.
  unfold migsOfProfile. induction 1 as [|m migs Hm _ [IH1 IH2]]; [done|].
  split.
  - rewrite filter_cons_True by done. by rewrite IH1.
  - intros k' Hk'. rewrite filter_cons_False by congruence. by apply IH2.
Qed.

(** X6. Under the single strategy, with a device with MIG enabled, none of
    them empty and no device with MIG disabled, when all MIG devices have
    the same canonical name the labeler is the one of the resource
    "nvidia.com/gpu", made from the first MIG device with the number of
    MIG devices as its count; no warning is written. *)
Theorem single_uniform_node (nvmlLib : Nvml) (config : Config)
    (d : Device) (ds : list Device) (m : Device) (ms : list Device)
    (k : string) :
  GetDevicesWithMigEnabled (NewDeviceInfo nvmlLib) = Ok (d :: ds) ->
  AnyMigEnabledDeviceIsEmpty (NewDeviceInfo nvmlLib) = Ok false ->
  GetDevicesWithMigDisabled (NewDeviceInfo nvmlLib) = Ok [] ->
  GetAllMigDevices (NewDeviceInfo nvmlLib) = Ok (m :: ms) ->
  Forall (fun mig => outcome (getMigDeviceName mig) = Ok k) (m :: ms) ->
  newMigStrategySingleLabeler nvmlLib config
  = after ([CallGetDevicesWithMigEnabled; CallAnyMigEnabledDeviceIsEmpty;
            CallGetDevicesWithMigDisabled; CallGetAllMigDevices]
           ++ replicate (length (m :: ms)) CallGetAttributes)
      (l <- call CallNewMIGResourceLabeler
              (NewMIGResourceLabeler "nvidia.com/gpu" config (Some m)
                 (Z.of_nat (length (m :: ms))))
              orElse "failed to construct labeler: " ;;
       ret (ofList [l]))
  /\ logged (trace (newMigStrategySingleLabeler nvmlLib config)) = [].
Proof.
  intros Hen Hempty Hdis Hall Hname.
  destruct (countMigDevices_total (fun _ => "nvidia.com/gpu") (m :: ms) ∅)
    as [resources Hcount].
  { eapply Forall_impl; [exact Hname|]. intros mig. simpl.
    unfold getMigDeviceName.
    destruct (GetAttributes mig) as [attr|e]; [eauto|done]. }
  destruct (migsOfProfile_all k (m :: ms) Hname) as [Hk Hother].
  assert (resources
          = {[ k := {| name := "nvidia.com/gpu"; device := Some m;
                       count := Z.of_nat (length (m :: ms)) |} ]}) as ->.
  { apply map_eq. intros k'.
    rewrite (countMigDevices_lookup _ _ _ _ _ k' Hcount), lookup_empty.
    unfold occurrences.
    destruct (decide (k' = k)) as [->|Hne].
    - by rewrite Hk, lookup_singleton_eq.
    - by rewrite (Hother k' Hne), lookup_singleton_ne. }
  assert (newMigStrategySingleLabeler nvmlLib config
          = after ([CallGetDevicesWithMigEnabled;
                    CallAnyMigEnabledDeviceIsEmpty;
                    CallGetDevicesWithMigDisabled; CallGetAllMigDevices]
                   ++ replicate (length (m :: ms)) CallGetAttributes)
              (l <- call CallNewMIGResourceLabeler
                      (NewMIGResourceLabeler "nvidia.com/gpu" config (Some m)
                         (Z.of_nat (length (m :: ms))))
                      orElse "failed to construct labeler: " ;;
               ret (ofList [l]))) as Hsingle.
  { rewrite (single_after_counting _ _ d ds (m :: ms) _ _
               Hen Hempty Hdis Hall Hcount).
    rewrite decide_False by (rewrite map_size_singleton; auto).
    unfold newMIGDeviceLabelers. rewrite map_to_list_singleton.
    cbn [newMIGDeviceLabelers_loop name device count snd].
    f_equal.
    by destruct (NewMIGResourceLabeler "nvidia.com/gpu" config (Some m) _). }
  split; [done|].
  rewrite Hsingle, trace_after, !logged_app.
  assert (forall n, logged (replicate n CallGetAttributes) = []) as ->
    by (induction n; [done|by simpl]).
  simpl.
  by destruct (NewMIGResourceLabeler "nvidia.com/gpu" config (Some m) _).
Qed.

(** X7. Under the single strategy, past the first two checks, an empty
    list of MIG devices is an invalid configuration: no resource is
    counted, and the labels are those of an invalid configuration, with
    the reason of more than one MIG device type. *)
Theorem single_no_mig_devices (nvmlLib : Nvml) (config : Config)
    (d : Device) (ds : list Device) :
  GetDevicesWithMigEnabled (NewDeviceInfo nvmlLib) = Ok (d :: ds) ->
  AnyMigEnabledDeviceIsEmpty (NewDeviceInfo nvmlLib) = Ok false ->
  GetDevicesWithMigDisabled (NewDeviceInfo nvmlLib) = Ok [] ->
  GetAllMigDevices (NewDeviceInfo nvmlLib) = Ok [] ->
  newMigStrategySingleLabeler nvmlLib config
  = after [CallGetDevicesWithMigEnabled; CallAnyMigEnabledDeviceIsEmpty;
           CallGetDevicesWithMigDisabled; CallGetAllMigDevices]
      (newInvalidMigStrategyLabeler nvmlLib reasonMultipleTypes).
Proof.
  intros Hen Hempty Hdis Hall.
  rewrite (single_after_counting _ _ d ds [] [] ∅ Hen Hempty Hdis Hall
             eq_refl).
  rewrite decide_True by (rewrite map_size_empty; auto).
  by rewrite app_nil_r.
Qed.

(** X9. The labels of an invalid configuration do not tell the reason:
    for every reason the result is the same, and only the warning differs.
    When device 0 cannot be asked for, the labeler fails after the warning
    is written. *)
Theorem newInvalidMigStrategyLabeler_reason_in_log_only (nvml : Nvml) :
  (forall reason1 reason2 : string,
     outcome (newInvalidMigStrategyLabeler nvml reason1)
     = outcome (newInvalidMigStrategyLabeler nvml reason2))
  /\ (forall (reason : string) (e : error),
        NewDevice nvml 0 = Err e ->
        newInvalidMigStrategyLabeler nvml reason
        = ([LogPrintf (invalidWarning reason); CallNewDevice 0],
           Err (Errorf "error getting device: " e))).
Proof.
  split.
  - intros reason1 reason2. unfold newInvalidMigStrategyLabeler.
    destruct (NewDevice nvml 0) as [device|e]; simpl; [|done].
    by destruct (GetName device).
  - intros reason e Hdev. unfold newInvalidMigStrategyLabeler.
    by rewrite Hdev.
Qed.

(** ** The whole pass *)

Lemma logged_no_log (t : list Event) :
  (forall ev, ev ∈ t -> forall msg, ev <> LogPrintf msg) ->
  logged t = [].
Proof.
  induction t as [|ev t IH]; intros Hno; [done|].
  unfold logged in *. simpl.
  destruct ev; try (apply IH; intros ev' Hin; apply Hno; by right).
  exfalso. eapply Hno; [left|done].
Qed.

Lemma elem_of_trace_after {A} (ev : Event) (t : list Event) (m : M A) :
  ev ∈ trace (after t m) <-> ev ∈ t \/ ev ∈ trace m.
Proof. by rewrite trace_after, elem_of_app. Qed.

Lemma newGPULabelers_trace_elem (nvmlLib : Nvml) (config : Config)
    (ev : Event) :
  ev ∈ trace (newGPULabelers nvmlLib config) ->
  ev = CallGetDeviceCount \/ ev = CallNewDevice 0
  \/ ev = CallNewGPUResourceLabeler \/ ev = CallLabels.
Proof.
  unfold newGPULabelers.
  destruct (GetDeviceCount nvmlLib) as [n|e]; simpl;
    [|rewrite elem_of_cons, elem_of_nil; intuition].
  destruct (decide (n = 0)) as [Hz|Hz]; simpl;
    [rewrite elem_of_cons, elem_of_nil; intuition|].
  destruct (decide (0 < n)) as [Hpos|Hpos]; simpl.
  - destruct (NewDevice nvmlLib 0) as [device|e]; simpl;
      [|rewrite !elem_of_cons, elem_of_nil; intuition].
    destruct (NewGPUResourceLabeler config device (int_of_uint n))
      as [l|e]; simpl; [|rewrite !elem_of_cons, elem_of_nil; intuition].
    destruct (list_Labels [l]); simpl;
      rewrite !elem_of_cons, elem_of_nil; intuition.
  - destruct (list_Labels []); simpl;
      rewrite !elem_of_cons, elem_of_nil; intuition.
Qed.

Lemma single_logged (nvmlLib : Nvml) (config : Config) :
  logged (trace (newMigStrategySingleLabeler nvmlLib config)) = []
  \/ exists r : string,
       (r = reasonEmpty \/ r = reasonMixedEnablement
        \/ r = reasonMultipleTypes)
       /\ logged (trace (newMigStrategySingleLabeler nvmlLib config))
          = [invalidWarning r].
Proof.
  unfold newMigStrategySingleLabeler.
  destruct (GetDevicesWithMigEnabled (NewDeviceInfo nvmlLib))
    as [[|d ds]|e] eqn:Hen; [by left| |by left].
  rewrite (bind_call_Ok _ _ _ (d :: ds)) by done.
  rewrite decide_False by done.
  destruct (AnyMigEnabledDeviceIsEmpty (NewDeviceInfo nvmlLib))
    as [[|]|e] eqn:Hempty; [| |by left].
  { rewrite (bind_call_Ok _ _ _ true) by done.
    right. exists reasonEmpty. split; [auto|].
    rewrite !after_after, trace_after, logged_app. simpl.
    apply newInvalidMigStrategyLabeler_logged. }
  rewrite (bind_call_Ok _ _ _ false) by done.
  destruct (GetDevicesWithMigDisabled (NewDeviceInfo nvmlLib))
    as [[|x xs]|e] eqn:Hdis; [| |by left].
  2:{ rewrite (bind_call_Ok _ _ _ (x :: xs)) by done.
      rewrite decide_True by done.
      right. exists reasonMixedEnablement. split; [auto|].
      rewrite !after_after, trace_after, logged_app. simpl.
      apply newInvalidMigStrategyLabeler_logged. }
  rewrite (bind_call_Ok _ _ _ []) by done.
  rewrite decide_False by (intros Hn; by apply Hn).
  destruct (GetAllMigDevices (NewDeviceInfo nvmlLib)) as [migs|e] eqn:Hall;
    [|by left].
  rewrite (bind_call_Ok _ _ _ migs) by done.
  pose proof (countMigDevices_logged (fun _ => "nvidia.com/gpu") migs ∅)
    as Hlog.
  destruct (countMigDevices _ migs ∅) as [t [resources|e]].
  - rewrite bind_Ok, !after_after, trace_after, !logged_app.
    simpl in Hlog. rewrite Hlog. simpl.
    destruct (decide (size resources ≠ 1%nat)).
    + right. exists reasonMultipleTypes. split; [auto|].
      apply newInvalidMigStrategyLabeler_logged.
    + left. apply newMIGDeviceLabelers_logged.
  - left. rewrite !after_after, trace_after, !logged_app.
    simpl in *. by rewrite Hlog.
Qed.

Lemma single_device_calls (nvmlLib : Nvml) (config : Config) (i : Z) :
  CallNewDevice i ∈ trace (newMigStrategySingleLabeler nvmlLib config) ->
  i = 0.
Proof.
  assert (Hinvalid : forall reason,
            CallNewDevice i ∈ trace (newInvalidMigStrategyLabeler nvmlLib
                                       reason) -> i = 0).
  { intros reason Hin.
    apply newInvalidMigStrategyLabeler_trace in Hin. intuition congruence. }
  unfold newMigStrategySingleLabeler.
  destruct (GetDevicesWithMigEnabled (NewDeviceInfo nvmlLib))
    as [[|d ds]|e] eqn:Hen; [not_in_trace| |not_in_trace].
  rewrite (bind_call_Ok _ _ _ (d :: ds)) by done.
  rewrite decide_False by done.
  destruct (AnyMigEnabledDeviceIsEmpty (NewDeviceInfo nvmlLib))
    as [[|]|e] eqn:Hempty.
  - rewrite (bind_call_Ok _ _ _ true) by done.
    rewrite !after_after, elem_of_trace_after.
    intros [Hin|Hin]; [revert Hin; not_in_trace|by eapply Hinvalid].
  - rewrite (bind_call_Ok _ _ _ false) by done.
    destruct (GetDevicesWithMigDisabled (NewDeviceInfo nvmlLib))
      as [[|x xs]|e] eqn:Hdis.
    + rewrite (bind_call_Ok _ _ _ []) by done.
      rewrite decide_False by (intros Hn; by apply Hn).
      destruct (GetAllMigDevices (NewDeviceInfo nvmlLib))
        as [migs|e] eqn:Hall.
      * rewrite (bind_call_Ok _ _ _ migs) by done.
        pose proof (countMigDevices_trace (fun _ => "nvidia.com/gpu")
                      migs ∅ (CallNewDevice i)) as Hcount.
        destruct (countMigDevices _ migs ∅) as [t [resources|e]].
        -- rewrite bind_Ok, !after_after, elem_of_trace_after, elem_of_app.
           intros [[Hin|Hin]|Hin];
             [revert Hin; not_in_trace|by specialize (Hcount Hin)|].
           destruct (decide (size resources ≠ 1%nat));
             [by eapply Hinvalid|].
           by apply newMIGDeviceLabelers_trace in Hin.
        -- rewrite !after_after, elem_of_trace_after.
           intros [Hin|Hin];
             [revert Hin; not_in_trace|by specialize (Hcount Hin)].
      * rewrite (bind_call_Err _ _ _ e) by done.
        rewrite !after_after, elem_of_trace_after.
        intros [Hin|Hin]; revert Hin; not_in_trace.
    + rewrite (bind_call_Ok _ _ _ (x :: xs)) by done.
      rewrite decide_True by done.
      rewrite !after_after, elem_of_trace_after.
      intros [Hin|Hin]; [revert Hin; not_in_trace|by eapply Hinvalid].
    + rewrite (bind_call_Err _ _ _ e) by done.
      rewrite !after_after, elem_of_trace_after.
      intros [Hin|Hin]; revert Hin; not_in_trace.
  - rewrite (bind_call_Err _ _ _ e) by done.
    rewrite elem_of_trace_after.
    intros [Hin|Hin]; revert Hin; not_in_trace.
Qed.

(** The trace of newMigLabeler is that of the labeler of its strategy. *)
Lemma newMigLabeler_trace (nvmlLib : Nvml) (config : Config) :
  trace (newMigLabeler nvmlLib config)
  = if decide (MigStrategy (Flags config) = MigStrategyNone) then []
    else if decide (MigStrategy (Flags config) = MigStrategySingle)
    then trace (newMigStrategySingleLabeler nvmlLib config)
    else if decide (MigStrategy (Flags config) = MigStrategyMixed)
    then trace (newMigStrategyMixedLabeler nvmlLib config)
    else [].
Proof.
  unfold newMigLabeler. rewrite trace_bind.
  repeat case_decide; rewrite ?trace_wrapErr, ?outcome_wrapErr; simpl;
    try done.
  - destruct (outcome _); simpl; by rewrite app_nil_r.
  - destruct (outcome _); simpl; by rewrite app_nil_r.
Qed.

(** The trace of NewResourceLabeler: the device count, then the labeler
    of the full GPUs, then newMigLabeler, as far as the pass gets. *)
Lemma NewResourceLabeler_trace_elem (nvmlLib : Nvml) (config : Config)
    (ev : Event) :
  ev ∈ trace (NewResourceLabeler nvmlLib config) ->
  ev = CallGetDeviceCount
  \/ ev ∈ trace (newGPULabelers nvmlLib config)
  \/ (MigStrategy (Flags config) <> spec_MigStrategyNone
      /\ ev ∈ trace (newMigLabeler nvmlLib config)).
Proof.
  unfold NewResourceLabeler. rewrite trace_bind, trace_wrapErr.
  rewrite outcome_wrapErr. simpl.
  destruct (GetDeviceCount nvmlLib) as [n|e]; simpl;
    [|rewrite elem_of_cons, elem_of_nil; intuition].
  case_decide; simpl; [rewrite elem_of_cons, elem_of_nil; intuition|].
  rewrite trace_bind, trace_wrapErr, outcome_wrapErr.
  rewrite elem_of_cons, elem_of_app.
  intros [->|[Hin|Hin]]; [by left|by right; left|].
  destruct (outcome (newGPULabelers nvmlLib config)) as [full|e];
    [|by apply elem_of_nil in Hin].
  case_decide; [by apply elem_of_nil in Hin|].
  rewrite trace_bind, trace_wrapErr, outcome_wrapErr in Hin.
  apply elem_of_app in Hin as [Hin|Hin]; [by right; right|].
  destruct (outcome (newMigLabeler nvmlLib config));
    by apply elem_of_nil in Hin.
Qed.

(** X10. Under the none strategy, on a node with a GPU, the pass is the
    labeler of the full GPUs alone: the inventory of MIG devices is not
    queried, nothing is logged, and a label set is returned as it is,
    without a label of the strategy merged in. *)
Theorem NewResourceLabeler_none (nvmlLib : Nvml) (config : Config) (n : Z) :
  MigStrategy (Flags config) = spec_MigStrategyNone ->
  GetDeviceCount nvmlLib = Ok n ->
  0 < n ->
  NewResourceLabeler nvmlLib config
  = after [CallGetDeviceCount]
      (newGPULabelers nvmlLib config orElse "failed to construct GPU labeler: ")
  /\ (forall ev, ev ∈ trace (NewResourceLabeler nvmlLib config) ->
        ev = CallGetDeviceCount \/ ev = CallNewDevice 0
        \/ ev = CallNewGPUResourceLabeler \/ ev = CallLabels)
  /\ (forall l, outcome (NewResourceLabeler nvmlLib config) = Ok l ->
        exists labels,
          l = ofLabels labels
          /\ exists gpu, list_Labels [gpu] = Ok labels).
Proof.
  intros Hnone Hcount Hn.
  assert (NewResourceLabeler nvmlLib config
          = after [CallGetDeviceCount]
              (newGPULabelers nvmlLib config
                 orElse "failed to construct GPU labeler: ")) as Hpass.
  { unfold NewResourceLabeler.
    rewrite (bind_call_Ok _ _ _ n) by done.
    rewrite decide_False by lia. f_equal.
    destruct (newGPULabelers nvmlLib config) as [t [full|e]]; [|done].
    simpl. rewrite decide_True by done. simpl. by rewrite app_nil_r. }
  split; [done|]. split.
  - intros ev. rewrite Hpass, elem_of_trace_after, trace_wrapErr.
    intros [Hin|Hin]; [revert Hin; not_in_trace|].
    by apply (newGPULabelers_trace_elem nvmlLib config).
  - intros l. rewrite Hpass, outcome_after, outcome_wrapErr.
    unfold newGPULabelers. rewrite Hcount. simpl.
    rewrite decide_False by lia. simpl.
    rewrite decide_True by done. simpl.
    destruct (NewDevice nvmlLib 0) as [device|e]; simpl; [|done].
    destruct (NewGPUResourceLabeler config device (int_of_uint n))
      as [gpu|e]; simpl; [|done].
    destruct (list_Labels [gpu]) as [labels|e] eqn:Hlabels; simpl; [|done].
    intros [= <-]. eauto.
Qed.

(** X11. On a node with a GPU, under the single and the mixed strategy,
    the pass merges the labeler of the full GPUs with the merge of the
    label of the strategy and the labeler of the MIG resources; an error
    of the latter comes back under the prefixes of newMigLabeler and of
    NewResourceLabeler, and no labeler is returned. *)
Theorem NewResourceLabeler_merges (nvmlLib : Nvml) (config : Config)
    (n : Z) (tg : list Event) (full : Labeler) :
  GetDeviceCount nvmlLib = Ok n ->
  n <> 0 ->
  newGPULabelers nvmlLib config = (tg, Ok full) ->
  (MigStrategy (Flags config) = MigStrategySingle ->
   trace (NewResourceLabeler nvmlLib config)
   = CallGetDeviceCount :: tg
     ++ trace (newMigStrategySingleLabeler nvmlLib config)
   /\ outcome (NewResourceLabeler nvmlLib config)
      = match outcome (newMigStrategySingleLabeler nvmlLib config) with
        | Ok l =>
            Ok (Merge [full; Merge [migStrategyLabeler MigStrategySingle; l]])
        | Err e =>
            Err (Errorf "failed to construct MIG resource labeler: "
                   (Errorf "failed to create labeler for mig-strategy=single: "
                      e))
        end)
  /\ (MigStrategy (Flags config) = MigStrategyMixed ->
      trace (NewResourceLabeler nvmlLib config)
      = CallGetDeviceCount :: tg
        ++ trace (newMigStrategyMixedLabeler nvmlLib config)
      /\ outcome (NewResourceLabeler nvmlLib config)
         = match outcome (newMigStrategyMixedLabeler nvmlLib config) with
           | Ok l =>
               Ok (Merge [full; Merge [migStrategyLabeler MigStrategyMixed; l]])
           | Err e =>
               Err (Errorf "failed to construct MIG resource labeler: "
                      (Errorf
                         "failed to create labeler for mig-strategy=mixed: "
                         e))
           end).
Proof.
  intros Hcount Hn Hgpu.
  assert (Hpass : MigStrategy (Flags config) <> spec_MigStrategyNone ->
            NewResourceLabeler nvmlLib config
            = after (CallGetDeviceCount :: tg)
                (migLabeler <-
                   newMigLabeler nvmlLib config
                     orElse "failed to construct MIG resource labeler: " ;;
                 ret (Merge [full; migLabeler]))).
  { intros Hs. unfold NewResourceLabeler.
    rewrite (bind_call_Ok _ _ _ n) by done.
    rewrite decide_False by done.
    rewrite Hgpu. cbn [wrapErr]. rewrite bind_Ok.
    rewrite decide_False by done. by rewrite after_after. }
  split; intros Hs.
  - rewrite Hpass by (rewrite Hs; done).
    rewrite trace_after, outcome_after.
    unfold newMigLabeler. rewrite Hs.
    rewrite decide_False by done. rewrite decide_True by done.
    destruct (newMigStrategySingleLabeler nvmlLib config) as [ts [l|e]];
      simpl; by rewrite ?app_nil_r.
  - rewrite Hpass by (rewrite Hs; done).
    rewrite trace_after, outcome_after.
    unfold newMigLabeler. rewrite Hs.
    rewrite !decide_False by done. rewrite decide_True by done.
    destruct (newMigStrategyMixedLabeler nvmlLib config) as [ts [l|e]];
      simpl; by rewrite ?app_nil_r.
Qed.

Lemma newGPULabelers_logged (nvmlLib : Nvml) (config : Config) :
  logged (trace (newGPULabelers nvmlLib config)) = [].
Proof.
  apply logged_no_log. intros ev Hin msg.
  apply newGPULabelers_trace_elem in Hin. intuition congruence.
Qed.

Lemma NewResourceLabeler_logged (nvmlLib : Nvml) (config : Config) :
  logged (trace (NewResourceLabeler nvmlLib config)) = []
  \/ (MigStrategy (Flags config) = MigStrategySingle
      /\ logged (trace (NewResourceLabeler nvmlLib config))
         = logged (trace (newMigStrategySingleLabeler nvmlLib config))).
Proof.
  unfold NewResourceLabeler. rewrite trace_bind, trace_wrapErr.
  rewrite outcome_wrapErr. simpl.
  destruct (GetDeviceCount nvmlLib) as [n|e]; simpl; [|by left].
  case_decide; simpl; [by left|].
  rewrite trace_bind, trace_wrapErr, outcome_wrapErr.
  change (CallGetDeviceCount :: ?t) with ([CallGetDeviceCount] ++ t).
  rewrite !logged_app, newGPULabelers_logged. simpl.
  destruct (outcome (newGPULabelers nvmlLib config)) as [full|e];
    [|by left].
  case_decide; [by left|].
  pose proof (newMigLabeler_trace nvmlLib config) as Hmig.
  destruct (newMigLabeler nvmlLib config) as [tm [ml|em]];
    unfold trace in Hmig; simpl in Hmig; subst tm; simpl;
    rewrite ?app_nil_r.
  all: fold (trace (newMigStrategySingleLabeler nvmlLib config)).
  all: fold (trace (newMigStrategyMixedLabeler nvmlLib config)).
  all: repeat case_decide; try (by left); try (by right).
  all: left; apply mixed_never_invalid.
Qed.

(** X12. A pass writes at most one warning, the one of an invalid
    configuration of the single strategy; under any other strategy
    nothing is logged. *)
Theorem NewResourceLabeler_warnings (nvmlLib : Nvml) (config : Config) :
  (MigStrategy (Flags config) <> MigStrategySingle ->
   logged (trace (NewResourceLabeler nvmlLib config)) = [])
  /\ (logged (trace (NewResourceLabeler nvmlLib config)) = []
      \/ exists r : string,
           (r = reasonEmpty \/ r = reasonMixedEnablement
            \/ r = reasonMultipleTypes)
           /\ logged (trace (NewResourceLabeler nvmlLib config))
              = [invalidWarning r]).
Proof.
  destruct (NewResourceLabeler_logged nvmlLib config) as [Hnil|[Hs Hlog]].
  - split; [done|by left].
  - split; [done|]. rewrite Hlog. apply single_logged.
Qed.

(** X13. Among the calls the functions of this file make, NewDevice is
    called for index 0 alone: the labeler of the full GPUs and the labels
    of an invalid configuration are made from device 0, whatever the
    device count is. The queries of the inventory are calls of their
    own. *)
Theorem NewResourceLabeler_asks_device_0 (nvmlLib : Nvml) (config : Config)
    (i : Z) :
  i <> 0 ->
  CallNewDevice i ∉ trace (NewResourceLabeler nvmlLib config).
Proof.
  intros Hi Hin.
  apply NewResourceLabeler_trace_elem in Hin as [Hin|[Hin|[_ Hin]]].
  - done.
  - apply newGPULabelers_trace_elem in Hin. intuition congruence.
  - rewrite newMigLabeler_trace in Hin.
    repeat case_decide; try (by apply elem_of_nil in Hin).
    + by apply single_device_calls in Hin.
    + apply mixed_trace in Hin. intuition congruence.
Qed.

End MoreLabelers.

(** ** Further runs on concrete nodes *)

Lemma single_uniform_node_witness :
  let m := migDevice 1 4864 in
  let node := nodeOf [migEnabledGPU "A100" [m; migDevice 1 5120];
                      migEnabledGPU "A100" [m]] in
  logged (trace (newMigStrategySingleLabeler (lmPkg := standInLm)
                   (migPkg := specMig) node (mkConfig (mkFlags "single"))))
  = [].
Proof.
  intros m node.
  exact (proj2 (single_uniform_node (lmPkg := standInLm) (migPkg := specMig)
                  node (mkConfig (mkFlags "single"))
                  (migEnabledGPU "A100" [m; migDevice 1 5120])
                  [migEnabledGPU "A100" [m]]
                  m [migDevice 1 5120; m] "1g.5gb"
                  ltac:(vm_compute; reflexivity)
                  ltac:(vm_compute; reflexivity)
                  ltac:(vm_compute; reflexivity)
                  ltac:(vm_compute; reflexivity)
                  ltac:(repeat constructor))).
Defined.

Lemma single_no_mig_devices_witness :
  newMigStrategySingleLabeler (lmPkg := standInLm) (migPkg := staleMig)
    (nodeOf [migEnabledGPU "A100" []]) (mkConfig (mkFlags "single"))
  = after [CallGetDevicesWithMigEnabled; CallAnyMigEnabledDeviceIsEmpty;
           CallGetDevicesWithMigDisabled; CallGetAllMigDevices]
      (newInvalidMigStrategyLabeler (lmPkg := standInLm)
         (nodeOf [migEnabledGPU "A100" []]) reasonMultipleTypes).
Proof.
  apply (single_no_mig_devices (lmPkg := standInLm) (migPkg := staleMig)
           (nodeOf [migEnabledGPU "A100" []]) (mkConfig (mkFlags "single"))
           (migEnabledGPU "A100" []) []);
    reflexivity.
Defined.

Lemma newInvalidMigStrategyLabeler_reason_in_log_only_witness :
  newInvalidMigStrategyLabeler (lmPkg := standInLm) (nodeOf []) reasonEmpty
  = ([LogPrintf (invalidWarning reasonEmpty); CallNewDevice 0],
     Err "error getting device: invalid device index").
Proof.
  apply (proj2 (newInvalidMigStrategyLabeler_reason_in_log_only
                  (lmPkg := standInLm) (nodeOf []))).
  reflexivity.
Defined.

Lemma NewResourceLabeler_none_witness :
  NewResourceLabeler (lmPkg := standInLm) (migPkg := specMig)
    (nodeOf [migEnabledGPU "A100" [migDevice 1 4864]])
    (mkConfig (mkFlags "none"))
  = after [CallGetDeviceCount]
      (newGPULabelers (lmPkg := standInLm)
         (nodeOf [migEnabledGPU "A100" [migDevice 1 4864]])
         (mkConfig (mkFlags "none"))
         orElse "failed to construct GPU labeler: ").
Proof.
  exact (proj1 (NewResourceLabeler_none (lmPkg := standInLm)
                  (migPkg := specMig)
                  (nodeOf [migEnabledGPU "A100" [migDevice 1 4864]])
                  (mkConfig (mkFlags "none")) 1
                  ltac:(reflexivity) ltac:(reflexivity) ltac:(lia))).
Defined.

Lemma NewResourceLabeler_merges_witness :
  let node := nodeOf [migEnabledGPU "A100" [migDevice 1 4864]] in
  let config := mkConfig (mkFlags "mixed") in
  trace (NewResourceLabeler (lmPkg := standInLm) (migPkg := specMig)
           node config)
  = CallGetDeviceCount
    :: [CallGetDeviceCount; CallNewDevice 0; CallNewGPUResourceLabeler;
        CallLabels]
    ++ trace (newMigStrategyMixedLabeler (lmPkg := standInLm)
                (migPkg := specMig) node config).
Proof.
  intros node config.
  assert (exists full,
            newGPULabelers (lmPkg := standInLm) node config
            = ([CallGetDeviceCount; CallNewDevice 0;
                CallNewGPUResourceLabeler; CallLabels], Ok full))
    as [full Hgpu] by (eexists; vm_compute; reflexivity).
  destruct (NewResourceLabeler_merges (lmPkg := standInLm)
              (migPkg := specMig) node config 1 _ full
              ltac:(reflexivity) ltac:(lia) Hgpu) as [_ Hmixed].
  exact (proj1 (Hmixed ltac:(reflexivity))).
Defined.

Lemma NewResourceLabeler_warnings_witness :
  logged (trace (NewResourceLabeler (lmPkg := standInLm) (migPkg := specMig)
                   (nodeOf [migEnabledGPU "A100" []])
                   (mkConfig (mkFlags "mixed")))) = [].
Proof.
  apply (proj1 (NewResourceLabeler_warnings (lmPkg := standInLm)
                  (migPkg := specMig) (nodeOf [migEnabledGPU "A100" []])
                  (mkConfig (mkFlags "mixed")))).
  vm_compute. discriminate.
Defined.

Lemma NewResourceLabeler_asks_device_0_witness :
  CallNewDevice 1
  ∉ trace (NewResourceLabeler (lmPkg := standInLm) (migPkg := specMig)
             (nodeOf [migEnabledGPU "A100" []; migDisabledGPU "A100"])
             (mkConfig (mkFlags "single"))).
Proof.
  apply (NewResourceLabeler_asks_device_0 (lmPkg := standInLm)
           (migPkg := specMig)). lia.
Defined.
